(** * workload-recommendation-parser.py: shallow embedding and properties

    The script fetches workload recommendations, locates one workload by
    name and namespace and turns its container recommendations into a
    Kubernetes patch.  The embedding follows the script function by
    function: [find_workload], [create_kubernetes_patch], [main].

    Python objects decoded by [json.loads] are values of [pyval]; the
    builtin operations the script applies to them ([in], subscripts,
    [.get], truth tests, [str], [int], [*]) are given with the exceptions
    they raise, so that the functions are total on every decoded value. *)

From Stdlib Require Import ZArith List String Ascii Bool Lia QArith Qround.
From Stdlib Require Import DecimalString.
From Stdlib Require Import Floats.SpecFloat.
Import ListNotations.

#[local] Set Warnings "-register-all".

Local Open Scope string_scope.
Local Open Scope Z_scope.

(** ** Python values *)

(** What [json.loads] returns: [None], [bool], [int], [float] (IEEE
    binary64, as [spec_float]), [str], [list], and [dict] as an association
    list in insertion order (every key bound once; a lookup takes the first
    binding). *)
Inductive pyval : Type :=
| PyNone
| PyBool (b : bool)
| PyInt (n : Z)
| PyFloat (x : spec_float)
| PyStr (s : string)
| PyList (items : list pyval)
| PyDict (fields : list (string * pyval)).

Inductive exn : Type :=
| KeyError (key : string)
| TypeError
| AttributeError
| ValueError
| OverflowError
| SystemExit (code : Z).

(** The outcome of evaluating an expression: a value or a raised exception. *)
Inductive result (A : Type) : Type :=
| Ok (a : A)
| Raise (e : exn).
Arguments Ok {A} a.
Arguments Raise {A} e.

Definition rbind {A B} (r : result A) (k : A -> result B) : result B :=
  match r with
  | Ok a => k a
  | Raise e => Raise e
  end.

Notation "'let*' x ':=' e 'in' k" := (rbind e (fun x => k))
  (at level 10, x name, e at level 100, k at level 200).

(** Decimal text of an integer, as [str(int)] and the f-string [{mem_mi}].
    (The cap recent interpreters put on the length of such a text, 4300
    digits unless configured, is left out.) *)
Definition decimal (z : Z) : string := NilZero.string_of_int (Z.to_int z).

(** ** binary64 *)

Module Float64.

Definition prec : Z := 53.
Definition emax : Z := 1024.

Definition valid (x : spec_float) : bool := valid_binary prec emax x.

(** [float(n)] for a Python int. *)
Definition of_int (n : Z) : spec_float := binary_normalize prec emax n 0 false.

Definition mul (x y : spec_float) : spec_float := SFmul prec emax x y.

Definition is_zero (x : spec_float) : bool :=
  match x with S754_zero _ => true | _ => false end.

(** Magnitude of [m * 2^e] cut to an integer. *)
Definition magnitude (m : positive) (e : Z) : Z :=
  if 0 <=? e then Z.pos m * 2 ^ e else Z.pos m / 2 ^ (- e).

(** [int(x)]: the integer part, towards zero. *)
Definition trunc (x : spec_float) : result Z :=
  match x with
  | S754_zero _ => Ok 0
  | S754_finite s m e => Ok (cond_Zopp s (magnitude m e))
  | S754_infinity _ => Raise OverflowError
  | S754_nan => Raise ValueError
  end.

(** The rational a finite float denotes. *)
Definition pow2 (e : Z) : Q :=
  if 0 <=? e then inject_Z (2 ^ e) else (1 # Z.to_pos (2 ^ (- e)))%Q.

Definition to_Q (x : spec_float) : Q :=
  match x with
  | S754_finite s m e => (inject_Z (cond_Zopp s (Z.pos m)) * pow2 e)%Q
  | _ => 0%Q
  end.

(** *** [repr(float)]: the shortest decimal that reads back as the float *)

Definition pow10 (k : Z) : Q :=
  if 0 <=? k then inject_Z (10 ^ k) else (1 # Z.to_pos (10 ^ (- k)))%Q.

Definition Qlt_bool (a b : Q) : bool := negb (Qle_bool b a).

Fixpoint raise_pt (fuel : nat) (x : Q) (p : Z) : Z :=
  match fuel with
  | O => p
  | S f => if Qle_bool (pow10 p) x then raise_pt f x (p + 1) else p
  end.

Fixpoint lower_pt (fuel : nat) (x : Q) (p : Z) : Z :=
  match fuel with
  | O => p
  | S f => if Qlt_bool x (pow10 (p - 1)) then lower_pt f x (p - 1) else p
  end.

(** The [p] with [10^(p-1) <= m * 2^e < 10^p]. *)
Definition decpt_of (m : positive) (e : Z) : Z :=
  let x := (inject_Z (Z.pos m) * pow2 e)%Q in
  let est := ((Z.log2 (Z.pos m) + e) * 30103) / 100000 in
  lower_pt 4 x (raise_pt 4 x est).

(** Both neighbours of [x] with [n] digits; one is taken when it lies in
    the rounding interval [lo, hi] of [x] (bounds included when the
    mantissa is even), the nearer when both do, the even one on a tie. *)
Definition try_digits (x lo hi : Q) (closed : bool) (p n : Z) : option (Z * Z) :=
  let k := p - n in
  let q := (x / pow10 k)%Q in
  let d := Qfloor q in
  let inside v :=
    if closed then Qle_bool lo v && Qle_bool v hi
    else Qlt_bool lo v && Qlt_bool v hi in
  let low_ok := inside (inject_Z d * pow10 k)%Q in
  let high_ok := inside (inject_Z (d + 1) * pow10 k)%Q in
  match low_ok, high_ok with
  | true, true =>
      match (2 * (q - inject_Z d) ?= 1)%Q with
      | Lt => Some (d, k)
      | Gt => Some (d + 1, k)
      | Eq => Some (if Z.even d then d else d + 1, k)
      end
  | true, false => Some (d, k)
  | false, true => Some (d + 1, k)
  | false, false => None
  end.

Fixpoint first_digits (ns : list Z) (x lo hi : Q) (closed : bool) (p : Z) : Z * Z :=
  match ns with
  | [] => (Qfloor (x / pow10 (p - 17)), p - 17)
  | n :: rest =>
      match try_digits x lo hi closed p n with
      | Some r => r
      | None => first_digits rest x lo hi closed p
      end
  end.

Fixpoint strip_zeros (fuel : nat) (d k : Z) : Z * Z :=
  match fuel with
  | O => (d, k)
  | S f => if (d mod 10 =? 0) && negb (d =? 0) then strip_zeros f (d / 10) (k + 1) else (d, k)
  end.

(** Digits and decimal point of the shortest decimal for [m * 2^e]: the
    value is [0.d1 d2 ... dn * 10^decpt]. *)
Definition shortest (m : positive) (e : Z) : string * Z :=
  let x := (inject_Z (Z.pos m) * pow2 e)%Q in
  let up := pow2 (e - 1) in
  let down := if (Z.pos m =? 2 ^ (prec - 1)) && (3 - emax - prec <? e)
              then pow2 (e - 2) else pow2 (e - 1) in
  let p := decpt_of m e in
  let '(d, k) :=
    first_digits (map Z.of_nat (seq 1 17))
      x (x - down)%Q (x + up)%Q (Z.even (Z.pos m)) p in
  let '(d, k) := strip_zeros 400 d k in
  let ds := decimal d in
  (ds, k + Z.of_nat (String.length ds)).

Fixpoint zeros (n : nat) : string :=
  match n with
  | O => ""
  | S k => "0" ++ zeros k
  end.

(** The layout of format code 'r': an exponent when [decpt <= -4] or
    [decpt > 16], a plain decimal with at least one fractional digit
    otherwise. *)
Definition layout (ds : string) (decpt : Z) : string :=
  let n := Z.of_nat (String.length ds) in
  if (decpt <=? -4) || (16 <? decpt) then
    let e := decpt - 1 in
    substring 0 1 ds
    ++ (if 1 <? n then "." ++ substring 1 (String.length ds - 1) ds else "")
    ++ "e" ++ (if e <? 0 then "-" else "+")
    ++ (if Z.abs e <? 10 then "0" else "") ++ decimal (Z.abs e)
  else if decpt <=? 0 then
    "0." ++ zeros (Z.to_nat (- decpt)) ++ ds
  else if decpt <? n then
    substring 0 (Z.to_nat decpt) ds ++ "."
    ++ substring (Z.to_nat decpt) (String.length ds - Z.to_nat decpt) ds
  else
    ds ++ zeros (Z.to_nat (decpt - n)) ++ ".0".

Definition repr (x : spec_float) : string :=
  match x with
  | S754_nan => "nan"
  | S754_infinity s => if s then "-inf" else "inf"
  | S754_zero s => if s then "-0.0" else "0.0"
  | S754_finite s m e =>
      let '(ds, decpt) := shortest m e in
      (if s then "-" else "") ++ layout ds decpt
  end.

End Float64.

(** [n] doublings of a mantissa. *)
Fixpoint dbl (n : nat) (p : positive) : positive :=
  match n with
  | O => p
  | S k => xO (dbl k p)
  end.

(** ** Builtin operations on decoded values *)

(** Truth value of an object, as tested by [if x:] and [not x]. *)
Definition truthy (v : pyval) : bool :=
  match v with
  | PyNone => false
  | PyBool b => b
  | PyInt n => negb (n =? 0)
  | PyFloat x => negb (Float64.is_zero x)
  | PyStr s => negb (String.eqb s "")
  | PyList items => match items with [] => false | _ => true end
  | PyDict fields => match fields with [] => false | _ => true end
  end.

(** An optional command-line string as [if s:] sees it: the string when it
    is given and not empty. *)
Definition given (o : option string) : option string :=
  match o with
  | Some s => if String.eqb s "" then None else Some s
  | None => None
  end.

Fixpoint assoc (key : string) (fields : list (string * pyval)) : option pyval :=
  match fields with
  | [] => None
  | (k, v) :: rest => if String.eqb k key then Some v else assoc key rest
  end.

(** [v == s] for a [str] [s]: only an equal [str] compares equal. *)
Definition eq_str (v : pyval) (s : string) : bool :=
  match v with
  | PyStr t => String.eqb t s
  | _ => false
  end.

Fixpoint occurs (needle hay : string) : bool :=
  if prefix needle hay then true
  else match hay with
       | EmptyString => false
       | String _ rest => occurs needle rest
       end.

(** [key in v]: key membership for a dict, element membership for a list,
    substring test for a str, a TypeError for the rest. *)
Definition py_in (key : string) (v : pyval) : result bool :=
  match v with
  | PyDict fields => Ok (match assoc key fields with Some _ => true | None => false end)
  | PyList items => Ok (existsb (fun i => eq_str i key) items)
  | PyStr s => Ok (occurs key s)
  | _ => Raise TypeError
  end.

(** [v[key]] for a [str] key. *)
Definition py_getitem (v : pyval) (key : string) : result pyval :=
  match v with
  | PyDict fields =>
      match assoc key fields with
      | Some x => Ok x
      | None => Raise (KeyError key)
      end
  | _ => Raise TypeError
  end.

(** [v.get(key)]: only a dict has the method. *)
Definition py_get (v : pyval) (key : string) : result pyval :=
  match v with
  | PyDict fields =>
      match assoc key fields with
      | Some x => Ok x
      | None => Ok PyNone
      end
  | _ => Raise AttributeError
  end.

(** The elements a [for] loop over [v] visits. *)
Definition py_iter (v : pyval) : result (list pyval) :=
  match v with
  | PyList items => Ok items
  | PyDict fields => Ok (map (fun kv => PyStr (fst kv)) fields)
  | PyStr s => Ok (map (fun c => PyStr (String c EmptyString)) (list_ascii_of_string s))
  | _ => Raise TypeError
  end.

Fixpoint repeat_string (n : nat) (s : string) : string :=
  match n with
  | O => ""
  | S k => s ++ repeat_string k s
  end.

Fixpoint repeat_list {A} (n : nat) (l : list A) : list A :=
  match n with
  | O => []
  | S k => (l ++ repeat_list k l)%list
  end.

(** Lines 65-68: the containers kept by the name filter, the first match
    only. *)
Fixpoint containers_named (containers : list pyval) (container_name : string)
  : result (list pyval) :=
  match containers with
  | [] => Ok []
  | container :: rest =>
      let* n := py_getitem container "name" in
      if eq_str n container_name then Ok [container]
      else containers_named rest container_name
  end.

(** ** Output and process exit *)

(** Text handed to [print] or [f.write]: a message, or the serialisation
    [json.dumps(doc, indent=indent)] of a document. *)
Inductive text : Type :=
| Plain (s : string)
| Dumps (doc : pyval) (indent : option Z).

Record world : Type := World {
  stdout : list text;
  stderr : list string;
  files : list (string * text)
}.

(** A statement sequence: it runs in a world and returns or raises. *)
Definition io (A : Type) : Type := world -> result A * world.

Definition ret {A} (a : A) : io A := fun w => (Ok a, w).

Definition bind {A B} (c : io A) (k : A -> io B) : io B :=
  fun w =>
    match c w with
    | (Ok a, w') => k a w'
    | (Raise e, w') => (Raise e, w')
    end.

Definition lift {A} (r : result A) : io A := fun w => (r, w).

Notation "x <- c ;; k" := (bind c (fun x => k))
  (at level 61, c at next level, right associativity).
Notation "c ;; k" := (bind c (fun _ => k))
  (at level 61, right associativity).

(** [print(s)] *)
Definition print (t : text) : io unit :=
  fun w => (Ok tt, World (stdout w ++ [t]) (stderr w) (files w)).

(** [print(s, file=sys.stderr)] *)
Definition print_err (s : string) : io unit :=
  fun w => (Ok tt, World (stdout w) (stderr w ++ [s]) (files w)).

(** [with open(path, 'w') as f: f.write(t)], on a path that can be opened
    and written: a failing [open] or write is not modelled, nor is a
    failing [print]. *)
Definition write_file (path : string) (t : text) : io unit :=
  fun w => (Ok tt, World (stdout w) (stderr w) (files w ++ [(path, t)])).

(** [sys.exit(code)] *)
Definition sys_exit {A} (code : Z) : io A := fun w => (Raise (SystemExit code), w).

(** The status the interpreter exits with. *)
Definition exit_code {A} (r : result A) : Z :=
  match r with
  | Ok _ => 0
  | Raise (SystemExit code) => code
  | Raise _ => 1
  end.

(** ** find_workload *)

(** Lines 34-38: the scan, with the short-circuit [and] of line 35. *)
Fixpoint find_workload_loop (workloads : list pyval) (name namespace : string)
  : result pyval :=
  match workloads with
  | [] => Ok PyNone
  | workload :: rest =>
      let* n := py_getitem workload "name" in
      if eq_str n name then
        let* s := py_getitem workload "namespace" in
        if eq_str s namespace then Ok workload
        else find_workload_loop rest name namespace
      else find_workload_loop rest name namespace
  end.

Definition find_workload (workloads_data : pyval) (name namespace : string) : io pyval :=
  present <- lift (py_in "workloads" workloads_data) ;;
  if negb present then
    print_err "Unexpected API response format: 'workloads' field not found" ;;
    sys_exit 1
  else
    workloads <- lift (py_getitem workloads_data "workloads") ;;
    items <- lift (py_iter workloads) ;;
    lift (find_workload_loop items name namespace).

(** ** The environment and the command line *)

(** What the [curl] subprocess and [json.loads] come to in one run. *)
Inductive response : Type :=
| CalledProcessError (e : string) (err : string)
| JSONDecodeError
| Body (data : pyval).

Record arguments : Type := Args {
  arg_cluster_id : string;
  arg_api_key : string;
  arg_name : string;
  arg_namespace : string;
  arg_container : option string;
  arg_output_file : option string;
  arg_pretty : bool
}.

(** ** The patch document *)

(** Lines 46-60 with the container list filled in. *)
Definition patch_document (kind name namespace : pyval) (containers : list pyval) : pyval :=
  PyDict
    [("apiVersion", PyStr "apps/v1");
     ("kind", kind);
     ("metadata", PyDict [("name", name); ("namespace", namespace)]);
     ("spec", PyDict [("template", PyDict [("spec",
        PyDict [("containers", PyList containers)])])])].

(** ** A runtime for ASCII text

    [int] and [repr] as CPython computes them on text made of ASCII
    characters; the worked examples below run with them. *)

Module Text.

Definition code (c : ascii) : Z := Z.of_nat (nat_of_ascii c).

Definition is_space (c : ascii) : bool :=
  ((9 <=? code c) && (code c <=? 13)) || (code c =? 32).

Fixpoint lstrip (s : string) : string :=
  match s with
  | String c rest => if is_space c then lstrip rest else s
  | EmptyString => s
  end.

Definition reverse (s : string) : string :=
  string_of_list_ascii (rev (list_ascii_of_string s)).

Definition strip (s : string) : string := reverse (lstrip (reverse (lstrip s))).

Definition digit_of (c : ascii) : option Z :=
  if (48 <=? code c) && (code c <=? 57) then Some (code c - 48) else None.

(** Decimal digits, single underscores allowed between two digits. *)
Fixpoint digits (acc : Z) (after_digit : bool) (s : string) : option Z :=
  match s with
  | EmptyString => if after_digit then Some acc else None
  | String c rest =>
      match digit_of c with
      | Some d => digits (acc * 10 + d) true rest
      | None => if Ascii.eqb c "_" && after_digit then digits acc false rest else None
      end
  end.

Definition int_of_text (s : string) : option Z :=
  match strip s with
  | String "+" rest => digits 0 false rest
  | String "-" rest => option_map Z.opp (digits 0 false rest)
  | t => digits 0 false t
  end.

Definition dquote : ascii := ascii_of_nat 34.

Fixpoint has (c : ascii) (s : string) : bool :=
  match s with
  | EmptyString => false
  | String d rest => Ascii.eqb c d || has c rest
  end.

Definition hex (n : Z) : string := substring (Z.to_nat n) 1 "0123456789abcdef".

Definition repr_char (quote c : ascii) : string :=
  if Ascii.eqb c quote || Ascii.eqb c "\" then String "\" (String c "")
  else if code c =? 9 then "\t"
  else if code c =? 10 then "\n"
  else if code c =? 13 then "\r"
  else if (code c <? 32) || (code c =? 127) then
    "\x" ++ hex (code c / 16) ++ hex (code c mod 16)
  else String c "".

Fixpoint repr_chars (quote : ascii) (s : string) : string :=
  match s with
  | EmptyString => ""
  | String c rest => repr_char quote c ++ repr_chars quote rest
  end.

Definition repr_str (s : string) : string :=
  let quote := if has "'" s && negb (has dquote s) then dquote else "'"%char in
  String quote (repr_chars quote s ++ String quote "").

Fixpoint join (parts : list string) : string :=
  match parts with
  | [] => ""
  | [p] => p
  | p :: rest => p ++ ", " ++ join rest
  end.

Fixpoint repr (v : pyval) : string :=
  match v with
  | PyNone => "None"
  | PyBool b => if b then "True" else "False"
  | PyInt n => decimal n
  | PyFloat x => Float64.repr x
  | PyStr s => repr_str s
  | PyList items => "[" ++ join (map repr items) ++ "]"
  | PyDict fields =>
      "{" ++ join (map (fun kv => repr_str (fst kv) ++ ": " ++ repr (snd kv)) fields) ++ "}"
  end.

End Text.

(** ** Reading documents *)

(** The value bound to [key] in a dict, if [v] is a dict binding it. *)
Definition field (key : string) (v : pyval) : option pyval :=
  match v with
  | PyDict fields => assoc key fields
  | _ => None
  end.

Fixpoint path (keys : list string) (v : pyval) : option pyval :=
  match keys with
  | [] => Some v
  | key :: rest =>
      match field key v with
      | Some x => path rest x
      | None => None
      end
  end.

(** The container blocks of a patch; none when the builder returned [None]. *)
Definition patched (patch : pyval) : list pyval :=
  match path ["spec"; "template"; "spec"; "containers"] patch with
  | Some (PyList blocks) => blocks
  | _ => []
  end.

(** [field key v] is a true value. *)
Definition field_truthy (key : string) (v : pyval) : bool :=
  match field key v with
  | Some x => truthy x
  | None => false
  end.

(** The containers the builder attaches: a true recommendation whose
    [requests] or [limits] is a true value. *)
Definition attaches (container : pyval) : bool :=
  match field "recommendation" container with
  | Some r => truthy r && (field_truthy "requests" r || field_truthy "limits" r)
  | None => false
  end.

(** The containers the builder considers: every container of the workload,
    or the first one with the wanted name. *)
Definition considered (workload : pyval) (container_name : option string)
  : result (list pyval) :=
  let* containers := py_getitem workload "containers" in
  let* items := py_iter containers in
  match given container_name with
  | Some wanted => containers_named items wanted
  | None => Ok items
  end.

(** A workload record the locator selects for [(name, namespace)]. *)
Definition matches (name namespace : string) (workload : pyval) : bool :=
  match field "name" workload, field "namespace" workload with
  | Some n, Some s => eq_str n name && eq_str s namespace
  | _, _ => false
  end.

(** A record with the two fields the locator reads. *)
Definition is_record (workload : pyval) : bool :=
  match field "name" workload, field "namespace" workload with
  | Some _, Some _ => true
  | _, _ => false
  end.

(** An element the scan steps over without reading more than it has: it
    has a [name], and a [namespace] too when its name is the wanted one. *)
Definition stepped_over (name namespace : string) (workload : pyval) : bool :=
  match field "name" workload with
  | Some n =>
      if eq_str n name then
        match field "namespace" workload with
        | Some s => negb (eq_str s namespace)
        | None => false
        end
      else true
  | None => false
  end.

(** The key whose lookup fails on a dict the scan cannot step over. *)
Definition missing_key (name : string) (workload : pyval) : option string :=
  match workload with
  | PyDict _ =>
      match field "name" workload with
      | None => Some "name"
      | Some n =>
          if eq_str n name then
            match field "namespace" workload with
            | None => Some "namespace"
            | Some _ => None
            end
          else None
      end
  | _ => None
  end.

(** The number a decoded int or finite float stands for. *)
Definition number_value (v : pyval) : option Q :=
  match v with
  | PyInt n => Some (inject_Z n)
  | PyFloat x =>
      if Float64.valid x then
        match x with
        | S754_zero _ | S754_finite _ _ _ => Some (Float64.to_Q x)
        | _ => None
        end
      else None
  | _ => None
  end.

(** Rounding towards zero. *)
Definition toward_zero (q : Q) : Z := if Qle_bool 0 q then Qfloor q else Qceiling q.

Inductive subsequence {A : Type} : list A -> list A -> Prop :=
| sub_nil : subsequence [] []
| sub_skip (x : A) (l l' : list A) : subsequence l l' -> subsequence l (x :: l')
| sub_keep (x : A) (l l' : list A) : subsequence l l' -> subsequence (x :: l) (x :: l').

(** ** Worked data *)

Module Sample.

Definition start : world := World [] [] [].

(** 0.25 and 0.5 *)
Definition quarter : spec_float := S754_finite false 4503599627370496 (-54).
Definition half : spec_float := S754_finite false 4503599627370496 (-53).

(** - 1/2048, a negative value whose product with 1024 is -0.5 *)
Definition minus_2048th : spec_float := S754_finite true 4503599627370496 (-63).

Definition app : pyval :=
  PyDict [("name", PyStr "app");
          ("recommendation", PyDict
             [("requests", PyDict [("cpuCores", PyFloat quarter); ("memoryGib", PyInt 1)]);
              ("limits", PyDict [("cpuCores", PyFloat half); ("memoryGib", PyInt 2)])])].

Definition workload_of (containers : list pyval) : pyval :=
  PyDict [("name", PyStr "web"); ("namespace", PyStr "default");
          ("kind", PyStr "Deployment"); ("containers", PyList containers)].

Definition web : pyval := workload_of [app].

Definition body : pyval := PyDict [("workloads", PyList [web])].

Definition api_of (data : pyval) (cluster_id api_key : string) : response := Body data.

Definition args : arguments :=
  Args "cluster-1" "secret" "web" "default" None None false.

Definition app_block : pyval :=
  PyDict [("name", PyStr "app");
          ("resources", PyDict
             [("requests", PyDict [("cpu", PyStr "0.25"); ("memory", PyStr "1024Mi")]);
              ("limits", PyDict [("cpu", PyStr "0.5"); ("memory", PyStr "2048Mi")])])].

Definition patch_of (blocks : list pyval) : pyval :=
  PyDict [("apiVersion", PyStr "apps/v1");
          ("kind", PyStr "Deployment");
          ("metadata", PyDict [("name", PyStr "web"); ("namespace", PyStr "default")]);
          ("spec", PyDict [("template", PyDict [("spec",
             PyDict [("containers", PyList blocks)])])])].

Definition web_patch : pyval := patch_of [app_block].

(** A container without a recommendation, and one whose recommendation is
    [null]. *)
Definition bare : pyval := PyDict [("name", PyStr "init")].
Definition idle : pyval := PyDict [("name", PyStr "idle"); ("recommendation", PyNone)].

(** A container whose memory request is the negative value above. *)
Definition shrunk : pyval :=
  PyDict [("name", PyStr "shrunk");
          ("recommendation", PyDict
             [("requests", PyDict [("memoryGib", PyFloat minus_2048th)])])].

(** A container whose [requests] holds neither [cpuCores] nor [memoryGib]. *)
Definition storage_only : pyval :=
  PyDict [("name", PyStr "cache");
          ("recommendation", PyDict
             [("requests", PyDict [("ephemeralStorageGib", PyInt 1)])])].

(** A container whose sections are both empty. *)
Definition hollow : pyval :=
  PyDict [("name", PyStr "hollow");
          ("recommendation", PyDict [("requests", PyDict []); ("limits", PyDict [])])].

(** An element with a name and no namespace. *)
Definition no_namespace : pyval := PyDict [("name", PyStr "other")].

(** An element with no name. *)
Definition no_name : pyval := PyDict [("namespace", PyStr "default")].

(** A second record under the same name and namespace as [web]. *)
Definition web_again : pyval :=
  PyDict [("name", PyStr "web"); ("namespace", PyStr "default");
          ("kind", PyStr "StatefulSet"); ("containers", PyList [])].

(** 1.5 *)
Definition one_and_half : spec_float := S754_finite false 6755399441055744 (-52).

Definition db : pyval :=
  PyDict [("name", PyStr "db");
          ("recommendation", PyDict
             [("requests", PyDict [("cpuCores", PyInt 2);
                                   ("memoryGib", PyFloat one_and_half)])])].

Definition db_block : pyval :=
  PyDict [("name", PyStr "db");
          ("resources", PyDict
             [("requests", PyDict [("cpu", PyStr "2"); ("memory", PyStr "1536Mi")])])].

(** A workload of five containers, two of which get a block. *)
Definition fleet_containers : list pyval := [bare; app; idle; hollow; db].
Definition fleet : pyval := workload_of fleet_containers.
Definition fleet_patch : pyval := patch_of [app_block; db_block].

(** A record under another name. *)
Definition api_record : pyval :=
  PyDict [("name", PyStr "api"); ("namespace", PyStr "default");
          ("kind", PyStr "Deployment"); ("containers", PyList [])].

(** A response without the [workloads] field. *)
Definition no_workloads : pyval := PyDict [("items", PyList [])].

Definition args_for (name : string) (container : option string) : arguments :=
  Args "cluster-1" "secret" name "default" container None false.

End Sample.

(** ** The script *)

Section Script.

(** Two corners of the runtime stay parameters: [int] of a text and the
    [repr] that [str] gives a list or dict.  No property below depends on
    what they return.  [curl] is the service as one run meets it. *)
Variable int_of_text : string -> option Z.
Variable repr_compound : pyval -> string.
Variable curl : string -> string -> response.

(** [str(v)] *)
Definition py_str (v : pyval) : string :=
  match v with
  | PyNone => "None"
  | PyBool b => if b then "True" else "False"
  | PyInt n => decimal n
  | PyFloat x => Float64.repr x
  | PyStr s => s
  | PyList _ | PyDict _ => repr_compound v
  end.

(** [v * n] for an int [n]. *)
Definition py_mul (v : pyval) (n : Z) : result pyval :=
  match v with
  | PyInt k => Ok (PyInt (k * n))
  | PyBool b => Ok (PyInt ((if b then 1 else 0) * n))
  | PyFloat x =>
      match Float64.of_int n with
      | S754_infinity _ => Raise OverflowError
      | y => Ok (PyFloat (Float64.mul x y))
      end
  | PyStr s => Ok (PyStr (repeat_string (Z.to_nat n) s))
  | PyList items => Ok (PyList (repeat_list (Z.to_nat n) items))
  | PyNone | PyDict _ => Raise TypeError
  end.

(** [int(v)] *)
Definition py_int (v : pyval) : result Z :=
  match v with
  | PyInt k => Ok k
  | PyBool b => Ok (if b then 1 else 0)
  | PyFloat x => Float64.trunc x
  | PyStr s =>
      match int_of_text s with
      | Some k => Ok k
      | None => Raise ValueError
      end
  | PyNone | PyList _ | PyDict _ => Raise TypeError
  end.

(** *** The patch builder's conversions *)

(** Lines 91-98 on [requests] and, word for word, lines 105-112 on
    [limits]: the dict of quantities built from one section. *)
Definition quantities (section : pyval) : result pyval :=
  let* has_cpu := py_in "cpuCores" section in
  let* cpu :=
    (if has_cpu : bool then
       let* cores := py_getitem section "cpuCores" in
       Ok [("cpu", PyStr (py_str cores))]
     else Ok []) in
  let* has_memory := py_in "memoryGib" section in
  let* memory :=
    (if has_memory : bool then
       let* gib := py_getitem section "memoryGib" in
       let* product := py_mul gib 1024 in
       let* mem_mi := py_int product in
       Ok [("memory", PyStr (decimal mem_mi ++ "Mi"))]
     else Ok []) in
  Ok (PyDict (cpu ++ memory)%list).

(** Lines 87-89 and 101-103: the entry a section adds to [resources]. *)
Definition section_entry (container : pyval) (key : string)
  : result (list (string * pyval)) :=
  let* recommendation := py_getitem container "recommendation" in
  let* present := py_get recommendation key in
  if truthy present then
    let* recommendation := py_getitem container "recommendation" in
    let* section := py_getitem recommendation key in
    let* q := quantities section in
    Ok [(key, q)]
  else Ok [].

(** One turn of the loop of lines 76-116: the block appended to the
    patch's containers, if any. *)
Definition container_patch (container : pyval) : result (option pyval) :=
  let* recommendation := py_get container "recommendation" in
  if negb (truthy recommendation) then Ok None
  else
    let* name := py_getitem container "name" in
    let* requests := section_entry container "requests" in
    let* limits := section_entry container "limits" in
    let resources := PyDict (requests ++ limits)%list in
    if truthy resources then
      Ok (Some (PyDict [("name", name); ("resources", resources)]))
    else Ok None.

Fixpoint patch_containers (containers_to_update : list pyval) : result (list pyval) :=
  match containers_to_update with
  | [] => Ok []
  | container :: rest =>
      let* block := container_patch container in
      let* blocks := patch_containers rest in
      Ok (match block with
          | Some b => b :: blocks
          | None => blocks
          end)
  end.

(** The block the loop builds for a container it attaches. *)
Definition block_of (c b : pyval) : Prop :=
  exists name rec reqs lims,
    field "name" c = Some name /\
    field "recommendation" c = Some rec /\
    truthy rec = true /\
    section_entry c "requests" = Ok reqs /\
    section_entry c "limits" = Ok lims /\
    b = PyDict [("name", name); ("resources", PyDict (reqs ++ lims)%list)].

(** *** fetch_cast_workloads *)

Definition fetch_cast_workloads (cluster_id api_key : string) : io pyval :=
  match curl cluster_id api_key with
  | Body data => ret data
  | CalledProcessError e err =>
      print_err ("Error fetching data from CAST.AI API: " ++ e) ;;
      (if negb (String.eqb err "") then print_err ("API error message: " ++ err)
       else ret tt) ;;
      sys_exit 1
  | JSONDecodeError =>
      print_err "Error decoding JSON response from API" ;;
      sys_exit 1
  end.

(** *** create_kubernetes_patch *)

(** Lines 75-122. *)
Definition build_patch (kind name namespace : pyval) (containers_to_update : list pyval)
  : io pyval :=
  blocks <- lift (patch_containers containers_to_update) ;;
  match blocks with
  | [] => ret PyNone
  | _ => ret (patch_document kind name namespace blocks)
  end.

Definition create_kubernetes_patch (workload : pyval) (container_name : option string)
  : io pyval :=
  if negb (truthy workload) then ret PyNone
  else
    kind <- lift (py_getitem workload "kind") ;;
    name <- lift (py_getitem workload "name") ;;
    namespace <- lift (py_getitem workload "namespace") ;;
    match given container_name with
    | Some wanted =>
        containers <- lift (py_getitem workload "containers") ;;
        items <- lift (py_iter containers) ;;
        containers_to_update <- lift (containers_named items wanted) ;;
        match containers_to_update with
        | [] =>
            print_err ("Container '" ++ wanted ++ "' not found in workload") ;;
            ret PyNone
        | _ => build_patch kind name namespace containers_to_update
        end
    | None =>
        containers <- lift (py_getitem workload "containers") ;;
        containers_to_update <- lift (py_iter containers) ;;
        build_patch kind name namespace containers_to_update
    end.

(** *** main *)

(** Lines 136-160, from the parsed arguments on.  Line 134 is left to
    argparse: on a command line it refuses, or one that asks for help, the
    process ends there and line 136 is not reached. *)
Definition main (args : arguments) : io unit :=
  workloads_data <- fetch_cast_workloads (arg_cluster_id args) (arg_api_key args) ;;
  workload <- find_workload workloads_data (arg_name args) (arg_namespace args) ;;
  if negb (truthy workload) then
    print_err ("Workload '" ++ arg_name args ++ "' not found in namespace '"
               ++ arg_namespace args ++ "'") ;;
    sys_exit 1
  else
    patch <- create_kubernetes_patch workload (arg_container args) ;;
    if negb (truthy patch) then
      print_err ("No recommendations found for workload '" ++ arg_name args ++ "'") ;;
      sys_exit 1
    else
      let indent := if arg_pretty args then Some 2 else None in
      let patch_json := Dumps patch indent in
      match given (arg_output_file args) with
      | Some path =>
          write_file path patch_json ;;
          print (Plain ("Patch written to " ++ path))
      | None => print patch_json
      end.

(** * Properties *)

(** ** Multiplying a binary64 by 1024 is exact *)

Lemma iter_pos_nat {A} (f : A -> A) p x : iter_pos f p x = Nat.iter (Pos.to_nat p) f x.
Proof.
  revert x; induction p as [p IH | p IH |]; intro x; simpl iter_pos.
  - rewrite !IH, Pos2Nat.inj_xI.
    replace (S (2 * Pos.to_nat p)) with (Pos.to_nat p + S (Pos.to_nat p))%nat by lia.
    now rewrite Nat.iter_add, Nat.iter_succ_r.
  - rewrite !IH, Pos2Nat.inj_xO.
    replace (2 * Pos.to_nat p)%nat with (Pos.to_nat p + Pos.to_nat p)%nat by lia.
    now rewrite Nat.iter_add.
  - reflexivity.
Qed.

Lemma shr_dbl n j p :
  Nat.iter n shr_1 (Build_shr_record (Z.pos (dbl (n + j) p)) false false)
  = Build_shr_record (Z.pos (dbl j p)) false false.
Proof.
  induction n as [| n IH]; [reflexivity |].
  rewrite Nat.iter_succ_r. simpl. exact IH.
Qed.

Lemma dbl_digits n p : Z.pos (digits2_pos (dbl n p)) = Z.pos (digits2_pos p) + Z.of_nat n.
Proof.
  induction n as [| n IH]; [simpl; lia |].
  simpl dbl. simpl digits2_pos. rewrite Pos2Z.inj_succ, IH. lia.
Qed.

Lemma dbl_value n p : Z.pos (dbl n p) = Z.pos p * 2 ^ Z.of_nat n.
Proof.
  induction n as [| n IH]; [simpl; lia |].
  simpl dbl. rewrite Pos2Z.inj_xO, IH, Nat2Z.inj_succ, Z.pow_succ_r by lia. ring.
Qed.

Lemma mul_pow52 m : (m * 4503599627370496)%positive = dbl 52 m.
Proof. rewrite Pos.mul_comm. reflexivity. Qed.

Lemma shr_exact n j p e :
  (0 < n)%nat ->
  shr (Build_shr_record (Z.pos (dbl (n + j) p)) false false) e (Z.of_nat n)
  = (Build_shr_record (Z.pos (dbl j p)) false false, e + Z.of_nat n).
Proof.
  intro Hn. unfold shr. destruct (Z.of_nat n) as [| q | q] eqn:E; try lia.
  rewrite iter_pos_nat. replace (Pos.to_nat q) with n by lia.
  now rewrite shr_dbl.
Qed.

Lemma shr_fexp_exact n j p e :
  Z.max (Z.pos (digits2_pos p) + Z.of_nat (n + j) + e - 53) (-1074) - e = Z.of_nat n ->
  shr_fexp Float64.prec Float64.emax (Z.pos (dbl (n + j) p)) e loc_Exact
  = (Build_shr_record (Z.pos (dbl j p)) false false, e + Z.of_nat n).
Proof.
  intro H. unfold shr_fexp, Zdigits2, fexp, emin, shr_record_of_loc.
  rewrite dbl_digits.
  change (3 - Float64.emax - Float64.prec) with (-1074).
  change Float64.prec with 53. rewrite H.
  destruct n as [| n].
  - simpl. now rewrite Z.add_0_r.
  - apply shr_exact. lia.
Qed.

Lemma mul_1024 s m e :
  Float64.valid (S754_finite s m e) = true ->
  exists j : nat,
    Float64.mul (S754_finite s m e) (Float64.of_int 1024)
    = if e + 10 - Z.of_nat j <=? 971
      then S754_finite s (dbl j m) (e + 10 - Z.of_nat j)
      else S754_infinity s.
Proof.
  unfold Float64.valid, valid_binary, bounded, canonical_mantissa, fexp, emin.
  change (3 - Float64.emax - Float64.prec) with (-1074).
  change (Float64.emax - Float64.prec) with 971.
  change Float64.prec with 53.
  intro H. apply andb_prop in H. destruct H as [Hc Hb].
  apply Z.eqb_eq in Hc. apply Z.leb_le in Hb.
  pose proof (Pos2Z.is_pos (digits2_pos m)) as Hd.
  set (d := Z.pos (digits2_pos m)) in *.
  set (n1 := Z.max (d + e - 43) (-1074) - e + 42).
  assert (Hn1 : 42 <= n1 <= 52) by (unfold n1; lia).
  exists (Z.to_nat (52 - n1)).
  change (Float64.of_int 1024) with (S754_finite false 4503599627370496 (-42)).
  unfold Float64.mul, SFmul, binary_round_aux.
  rewrite xorb_false_r, mul_pow52.
  replace 52%nat with (Z.to_nat n1 + Z.to_nat (52 - n1))%nat at 1 by lia.
  rewrite shr_fexp_exact by (fold d; unfold n1 in *; lia).
  cbn [shr_m loc_of_shr_record round_nearest_even].
  pose proof (shr_fexp_exact 0 (Z.to_nat (52 - n1)) m (e + -42 + Z.of_nat (Z.to_nat n1))) as H0.
  cbn [Nat.add] in H0. rewrite H0 by (fold d; unfold n1 in *; lia). clear H0.
  cbn [shr_m]. change (Float64.emax - Float64.prec) with 971.
  replace (e + -42 + Z.of_nat (Z.to_nat n1) + Z.of_nat 0)
    with (e + 10 - Z.of_nat (Z.to_nat (52 - n1))) by lia.
  reflexivity.
Qed.

Lemma magnitude_dbl j m e :
  Float64.magnitude (dbl j m) (e - Z.of_nat j) = Float64.magnitude m e.
Proof.
  unfold Float64.magnitude. rewrite dbl_value.
  set (k := Z.of_nat j). assert (0 <= k) by lia.
  destruct (Z.leb_spec 0 (e - k)), (Z.leb_spec 0 e); try lia.
  - replace e with ((e - k) + k) at 2 by lia. rewrite Z.pow_add_r by lia. ring.
  - replace (- (e - k)) with (k - e) by lia.
    replace k with ((k - e) + e) at 1 by lia. rewrite Z.pow_add_r by lia.
    rewrite (Z.mul_comm (2 ^ (k - e))), Z.mul_assoc, Z.div_mul; [reflexivity | ].
    apply Z.pow_nonzero; lia.
  - replace (- (e - k)) with (- e + k) by lia. rewrite Z.pow_add_r by lia.
    rewrite Z.div_mul_cancel_r; [reflexivity | |]; apply Z.pow_nonzero; lia.
Qed.

Lemma magnitude_floor m e :
  Qfloor (inject_Z (Z.pos m) * Float64.pow2 e * inject_Z 1024) = Float64.magnitude m (e + 10).
Proof.
  unfold Float64.magnitude, Float64.pow2.
  destruct (Z.leb_spec 0 e) as [He | He].
  - rewrite <- !inject_Z_mult, Qfloor_Z.
    destruct (Z.leb_spec 0 (e + 10)); [| lia].
    rewrite Z.pow_add_r by lia. change (2 ^ 10) with 1024. ring.
  - assert (Hp : 0 < 2 ^ (- e)) by (apply Z.pow_pos_nonneg; lia).
    unfold Qfloor, Qmult, inject_Z. cbn [Qnum Qden].
    rewrite Pos.mul_1_l, Pos.mul_1_r, Z.mul_1_r, Z2Pos.id by exact Hp.
    destruct (Z.leb_spec 0 (e + 10)).
    + assert (E : 1024 = 2 ^ (e + 10) * 2 ^ (- e)).
      { rewrite <- Z.pow_add_r by lia. now replace (e + 10 + - e) with 10 by lia. }
      rewrite E, Z.mul_assoc, Z.div_mul; [reflexivity | lia].
    + assert (E : 2 ^ (- e) = 2 ^ (- (e + 10)) * 1024).
      { change 1024 with (2 ^ 10). rewrite <- Z.pow_add_r by lia. f_equal; lia. }
      rewrite E, Z.div_mul_cancel_r; [reflexivity | | lia].
      apply Z.pow_nonzero; lia.
Qed.

Lemma trunc_mul_1024 x z :
  Float64.valid x = true ->
  Float64.trunc (Float64.mul x (Float64.of_int 1024)) = Ok z ->
  z = toward_zero (Float64.to_Q x * inject_Z 1024).
Proof.
  intros Hv Ht. destruct x as [s | s | | s m e].
  - change (Float64.of_int 1024) with (S754_finite false 4503599627370496 (-42)) in Ht.
    simpl in Ht. injection Ht as <-. reflexivity.
  - discriminate Ht.
  - discriminate Ht.
  - destruct (mul_1024 s m e Hv) as [j Hj]. rewrite Hj in Ht.
    destruct (e + 10 - Z.of_nat j <=? 971); [| discriminate Ht].
    simpl in Ht. injection Ht as <-.
    rewrite magnitude_dbl. unfold toward_zero, Float64.to_Q.
    pose proof (magnitude_floor m e) as Hf.
    destruct s; cbn [cond_Zopp].
    + replace (Qle_bool 0 (inject_Z (- Z.pos m) * Float64.pow2 e * inject_Z 1024)) with false.
      * unfold Qceiling. rewrite <- Hf. f_equal. apply Qfloor_comp.
        rewrite inject_Z_opp. ring.
      * symmetry. apply not_true_is_false. intro Hle. apply Qle_bool_iff in Hle.
        revert Hle. unfold Float64.pow2. destruct (Z.leb_spec 0 e).
        -- assert (0 < 2 ^ e) by (apply Z.pow_pos_nonneg; lia).
           unfold Qle, Qmult, inject_Z. cbn [Qnum Qden]. nia.
        -- unfold Qle, Qmult, inject_Z. cbn [Qnum Qden]. lia.
    + replace (Qle_bool 0 (inject_Z (Z.pos m) * Float64.pow2 e * inject_Z 1024)) with true.
      * now rewrite Hf.
      * symmetry. apply Qle_bool_iff. unfold Float64.pow2. destruct (Z.leb_spec 0 e).
        -- assert (0 <= 2 ^ e) by (apply Z.pow_nonneg; lia).
           unfold Qle, Qmult, inject_Z. cbn [Qnum Qden]. nia.
        -- unfold Qle, Qmult, inject_Z. cbn [Qnum Qden]. lia.
Qed.

(** ** Lookups *)

Lemma getitem_field v key x : py_getitem v key = Ok x <-> field key v = Some x.
Proof.
  destruct v; simpl; try (split; discriminate).
  destruct (assoc key fields); split; congruence.
Qed.

Lemma get_field v key x :
  py_get v key = Ok x ->
  exists fields, v = PyDict fields /\
    (field key v = Some x \/ (field key v = None /\ x = PyNone)).
Proof.
  destruct v; simpl; try discriminate.
  intro H. exists fields. split; [reflexivity |].
  destruct (assoc key fields); injection H as <-; auto.
Qed.

Lemma eq_str_true v s : eq_str v s = true <-> v = PyStr s.
Proof.
  destruct v; simpl; try (split; discriminate).
  rewrite String.eqb_eq. split; congruence.
Qed.

Lemma truthy_field_some key v x :
  field key v = Some x -> truthy v = true.
Proof. destruct v; simpl; try discriminate. destruct fields; [discriminate | reflexivity]. Qed.

(** ** Subsequences *)

Lemma subsequence_refl {A} (l : list A) : subsequence l l.
Proof. induction l; [apply sub_nil | now apply sub_keep]. Qed.

Lemma subsequence_nil {A} (l : list A) : subsequence [] l.
Proof. induction l; [apply sub_nil | now apply sub_skip]. Qed.

Lemma subsequence_filter {A} (f : A -> bool) (l l' : list A) :
  subsequence l l' -> subsequence (filter f l) l'.
Proof.
  induction 1 as [| x l l' _ IH | x l l' _ IH]; simpl.
  - constructor.
  - now constructor.
  - destruct (f x); [now apply sub_keep | now apply sub_skip].
Qed.

Lemma containers_named_subsequence items wanted sel :
  containers_named items wanted = Ok sel -> subsequence sel items.
Proof.
  revert sel; induction items as [| c rest IH]; simpl; intros sel H.
  - injection H as <-. constructor.
  - destruct (py_getitem c "name") as [n |]; simpl in H; [| discriminate].
    destruct (eq_str n wanted).
    + injection H as <-. apply sub_keep, subsequence_nil.
    + apply sub_skip. now apply IH.
Qed.

Lemma in_dict key fields : py_in key (PyDict fields) =
  Ok (match assoc key fields with Some _ => true | None => false end).
Proof. reflexivity. Qed.

Lemma quantities_cpu sec q v :
  quantities sec = Ok q -> field "cpuCores" sec = Some v ->
  field "cpu" q = Some (PyStr (py_str v)).
Proof.
  destruct sec; try discriminate. cbn [field]. intros H Hv.
  unfold quantities in H. rewrite !in_dict in H. cbn [py_getitem] in H.
  rewrite Hv in H. cbn [rbind] in H.
  destruct (assoc "memoryGib" fields) as [g |]; cbn [rbind] in H.
  - destruct (py_mul g 1024) as [p |]; cbn [rbind] in H; [| discriminate].
    destruct (py_int p) as [z |]; cbn [rbind] in H; [| discriminate].
    injection H as <-. reflexivity.
  - injection H as <-. reflexivity.
Qed.

Lemma quantities_memory sec q g :
  quantities sec = Ok q -> field "memoryGib" sec = Some g ->
  exists p z, py_mul g 1024 = Ok p /\ py_int p = Ok z /\
    field "memory" q = Some (PyStr (decimal z ++ "Mi")).
Proof.
  destruct sec; try discriminate. cbn [field]. intros H Hg.
  unfold quantities in H. rewrite !in_dict in H. cbn [py_getitem] in H.
  rewrite Hg in H.
  destruct (assoc "cpuCores" fields) as [v |]; cbn [rbind] in H;
    (destruct (py_mul g 1024) as [p |] eqn:Hp; cbn [rbind] in H; [| discriminate];
     destruct (py_int p) as [z |] eqn:Hz; cbn [rbind] in H; [| discriminate];
     injection H as <-; exists p, z; repeat split; auto).
Qed.

Lemma section_entry_spec c key rec l :
  section_entry c key = Ok l -> field "recommendation" c = Some rec ->
  (field_truthy key rec = false /\ l = []) \/
  (exists sec q, field key rec = Some sec /\ truthy sec = true /\
     quantities sec = Ok q /\ l = [(key, q)]).
Proof.
  intros H Hr. unfold section_entry in H.
  apply getitem_field in Hr. rewrite Hr in H. cbn [rbind] in H.
  destruct (py_get rec key) as [present |] eqn:Hp; cbn [rbind] in H; [| discriminate].
  apply get_field in Hp. destruct Hp as (fields & -> & Hp).
  unfold field_truthy.
  destruct Hp as [Hp | [Hp ->]]; rewrite Hp.
  - destruct (truthy present) eqn:Ht.
    + apply getitem_field in Hp. rewrite Hp in H. cbn [rbind] in H.
      destruct (quantities present) as [q |] eqn:Hq; cbn [rbind] in H; [| discriminate].
      injection H as <-. right. exists present, q. apply getitem_field in Hp. auto.
    + injection H as <-. auto.
  - cbn [truthy] in H. injection H as <-. auto.
Qed.

Lemma section_entry_truthy c key rec l :
  section_entry c key = Ok l -> field "recommendation" c = Some rec ->
  field_truthy key rec = match l with [] => false | _ => true end.
Proof.
  intros H Hr.
  destruct (section_entry_spec _ _ _ _ H Hr) as [[T ->] | (sec & q & F & T & _ & ->)].
  - exact T.
  - unfold field_truthy. now rewrite F.
Qed.

Lemma container_patch_spec c r :
  container_patch c = Ok r ->
  match r with
  | Some b => attaches c = true /\ block_of c b
  | None => attaches c = false
  end.
Proof.
  unfold container_patch. intro H.
  destruct (py_get c "recommendation") as [rec |] eqn:Hr; cbn [rbind] in H; [| discriminate].
  apply get_field in Hr. destruct Hr as (fields & -> & Hr).
  unfold attaches.
  destruct Hr as [Hr | [Hr ->]]; rewrite Hr.
  2:{ cbn in H. injection H as <-. reflexivity. }
  destruct (truthy rec) eqn:Ht; cbn [negb] in H.
  2:{ injection H as <-. reflexivity. }
  destruct (py_getitem (PyDict fields) "name") as [name |] eqn:Hn; cbn [rbind] in H; [| discriminate].
  apply getitem_field in Hn.
  destruct (section_entry (PyDict fields) "requests") as [reqs |] eqn:Hq; cbn [rbind] in H; [| discriminate].
  destruct (section_entry (PyDict fields) "limits") as [lims |] eqn:Hl; cbn [rbind] in H; [| discriminate].
  rewrite (section_entry_truthy _ _ _ _ Hq Hr), (section_entry_truthy _ _ _ _ Hl Hr).
  assert (Hb : block_of (PyDict fields)
                 (PyDict [("name", name); ("resources", PyDict (reqs ++ lims)%list)])).
  { exists name, rec, reqs, lims. repeat split; assumption. }
  destruct reqs as [| rq reqs], lims as [| lm lims]; cbn in H; injection H as <-;
    cbn; auto.
Qed.

Lemma patch_containers_spec cs blocks :
  patch_containers cs = Ok blocks -> Forall2 block_of (filter attaches cs) blocks.
Proof.
  revert blocks; induction cs as [| c rest IH]; intros blocks H; simpl in H.
  - injection H as <-. constructor.
  - destruct (container_patch c) as [r |] eqn:Hc; cbn [rbind] in H; [| discriminate].
    destruct (patch_containers rest) as [bs |]; cbn [rbind] in H; [| discriminate].
    injection H as <-. apply container_patch_spec in Hc. simpl.
    destruct r as [b |].
    + destruct Hc as [-> Hb]. constructor; auto.
    + rewrite Hc. auto.
Qed.

Lemma block_name c b :
  block_of c b -> exists n, field "name" c = Some n /\ field "name" b = Some n.
Proof.
  intros (name & rec & reqs & lims & Hn & _ & _ & _ & _ & ->).
  exists name. split; [assumption | reflexivity].
Qed.

Lemma block_recommendation c b :
  block_of c b -> exists r, field "recommendation" c = Some r /\ truthy r = true.
Proof.
  intros (name & rec & reqs & lims & _ & Hr & Ht & _). exists rec. auto.
Qed.

Lemma block_section c b key rec sec :
  block_of c b -> key = "requests" \/ key = "limits" ->
  field "recommendation" c = Some rec -> field key rec = Some sec -> truthy sec = true ->
  exists q, quantities sec = Ok q /\ path ["resources"; key] b = Some q.
Proof.
  intros (name & rec' & reqs & lims & _ & Hr & _ & Hq & Hl & ->) Hk Hr' Hs Ht.
  rewrite Hr in Hr'. injection Hr' as ->.
  assert (T : field_truthy key rec = true) by (unfold field_truthy; now rewrite Hs).
  destruct (section_entry_spec _ _ _ _ Hq Hr) as [[Tq ->] | (sq & qq & Fq & _ & Qq & ->)];
  destruct (section_entry_spec _ _ _ _ Hl Hr) as [[Tl ->] | (sl & ql & Fl & _ & Ql & ->)];
  destruct Hk as [-> | ->]; try congruence;
  rewrite Hs in *;
  repeat match goal with H : Some _ = Some _ |- _ => injection H as <- end;
  eexists; (split; [eassumption | reflexivity]).
Qed.

Lemma section_truthy key sec v : field key sec = Some v -> truthy sec = true.
Proof. apply truthy_field_some. Qed.

Lemma block_cpu c b key rec sec v :
  block_of c b -> key = "requests" \/ key = "limits" ->
  field "recommendation" c = Some rec -> field key rec = Some sec ->
  field "cpuCores" sec = Some v ->
  path ["resources"; key; "cpu"] b = Some (PyStr (py_str v)).
Proof.
  intros Hb Hk Hr Hs Hv.
  destruct (block_section c b key rec sec Hb Hk Hr Hs (section_truthy _ _ _ Hv))
    as (q & Hq & Hp).
  pose proof (quantities_cpu _ _ _ Hq Hv) as Hc.
  cbn [path] in *. destruct (field "resources" b) as [r |]; [| discriminate].
  destruct (field key r) as [q' |]; [| discriminate].
  injection Hp as ->. now rewrite Hc.
Qed.

Lemma block_memory c b key rec sec g :
  block_of c b -> key = "requests" \/ key = "limits" ->
  field "recommendation" c = Some rec -> field key rec = Some sec ->
  field "memoryGib" sec = Some g ->
  exists p z, py_mul g 1024 = Ok p /\ py_int p = Ok z /\
    path ["resources"; key; "memory"] b = Some (PyStr (decimal z ++ "Mi")).
Proof.
  intros Hb Hk Hr Hs Hg.
  destruct (block_section c b key rec sec Hb Hk Hr Hs (section_truthy _ _ _ Hg))
    as (q & Hq & Hp).
  destruct (quantities_memory _ _ _ Hq Hg) as (p & z & Hm & Hz & Hf).
  exists p, z. repeat split; try assumption.
  cbn [path] in *. destruct (field "resources" b) as [r |]; [| discriminate].
  destruct (field key r) as [q' |]; [| discriminate].
  injection Hp as ->. now rewrite Hf.
Qed.

Lemma attaches_section c key rec sec :
  key = "requests" \/ key = "limits" ->
  field "recommendation" c = Some rec -> field key rec = Some sec -> truthy sec = true ->
  attaches c = true.
Proof.
  intros Hk Hr Hs Ht. unfold attaches. rewrite Hr.
  rewrite (truthy_field_some _ _ _ Hs). cbn [andb].
  destruct Hk as [-> | ->]; unfold field_truthy; rewrite Hs, Ht;
    [reflexivity | apply orb_true_r].
Qed.

Lemma Forall2_In_l {A B} (R : A -> B -> Prop) l l' x :
  Forall2 R l l' -> In x l -> exists y, In y l' /\ R x y.
Proof.
  induction 1 as [| a b l l' Hab _ IH]; intros Hin; [destruct Hin |].
  destruct Hin as [-> | Hin].
  - exists b. split; [left; reflexivity | assumption].
  - destruct (IH Hin) as (y & Hy & Hr). exists y. split; [right |]; assumption.
Qed.

Lemma patched_blocks kind name ns blocks :
  patched (match blocks with
           | [] => PyNone
           | _ => patch_document kind name ns blocks
           end) = blocks.
Proof. destruct blocks; reflexivity. Qed.

Lemma build_patch_ok kind name ns cs w patch w' :
  build_patch kind name ns cs w = (Ok patch, w') ->
  exists blocks, patch_containers cs = Ok blocks /\ w' = w /\
    patch = match blocks with
            | [] => PyNone
            | _ => patch_document kind name ns blocks
            end.
Proof.
  unfold build_patch, bind, lift, ret.
  destruct (patch_containers cs) as [blocks |]; [| discriminate].
  intro H. exists blocks. destruct blocks; injection H as <- <-; auto.
Qed.

Lemma create_ok workload cn w patch w' :
  create_kubernetes_patch workload cn w = (Ok patch, w') ->
  (truthy workload = false /\ patch = PyNone /\ w' = w) \/
  (exists kind name ns cs blocks,
     field "kind" workload = Some kind /\
     field "name" workload = Some name /\
     field "namespace" workload = Some ns /\
     considered workload cn = Ok cs /\
     patch_containers cs = Ok blocks /\
     patch = match blocks with
             | [] => PyNone
             | _ => patch_document kind name ns blocks
             end /\
     stdout w' = stdout w /\ files w' = files w).
Proof.
  unfold create_kubernetes_patch, considered.
  destruct (truthy workload); cbn [negb].
  2:{ unfold ret. intro H. injection H as <- <-. auto. }
  unfold bind at 1 2 3. unfold lift at 1 2 3.
  destruct (py_getitem workload "kind") as [kind |] eqn:Hk; [| discriminate].
  destruct (py_getitem workload "name") as [name |] eqn:Hn; [| discriminate].
  destruct (py_getitem workload "namespace") as [ns |] eqn:Hs; [| discriminate].
  apply getitem_field in Hk, Hn, Hs.
  intro H. right. exists kind, name, ns.
  destruct (given cn) as [wanted |]; unfold bind, lift in H;
    (destruct (py_getitem workload "containers") as [cv |]; [| discriminate]);
    cbn [rbind];
    (destruct (py_iter cv) as [items |]; [| discriminate]); cbn [rbind].
  - destruct (containers_named items wanted) as [sel |]; [| discriminate].
    destruct sel as [| c sel].
    + unfold print_err, ret in H. injection H as <- <-.
      exists [], []. repeat split; auto.
    + apply build_patch_ok in H. destruct H as (blocks & Hb & -> & ->).
      exists (c :: sel), blocks. repeat split; auto.
  - apply build_patch_ok in H. destruct H as (blocks & Hb & -> & ->).
    exists items, blocks. repeat split; auto.
Qed.

(** ** The locator's scan *)

Lemma loop_steps_over pre rest name namespace :
  Forall (fun e => stepped_over name namespace e = true) pre ->
  find_workload_loop (pre ++ rest) name namespace = find_workload_loop rest name namespace.
Proof.
  induction 1 as [| e pre He _ IH]; [reflexivity |].
  cbn [app find_workload_loop]. unfold stepped_over in He.
  destruct (field "name" e) as [n |] eqn:Hn; [| discriminate].
  apply getitem_field in Hn. rewrite Hn. cbn [rbind].
  destruct (eq_str n name); [| exact IH].
  destruct (field "namespace" e) as [s |] eqn:Hs; [| discriminate].
  apply getitem_field in Hs. rewrite Hs. cbn [rbind].
  destruct (eq_str s namespace); [discriminate | exact IH].
Qed.

Lemma loop_match workload rest name namespace :
  matches name namespace workload = true ->
  find_workload_loop (workload :: rest) name namespace = Ok workload.
Proof.
  unfold matches. cbn [find_workload_loop].
  destruct (field "name" workload) as [n |] eqn:Hn; [| discriminate].
  destruct (field "namespace" workload) as [s |] eqn:Hs; [| discriminate].
  apply getitem_field in Hn, Hs. rewrite Hn, Hs. cbn [rbind].
  intro H. apply andb_prop in H. destruct H as [-> ->]. reflexivity.
Qed.

Lemma loop_missing e rest name namespace key :
  missing_key name e = Some key ->
  find_workload_loop (e :: rest) name namespace = Raise (KeyError key).
Proof.
  destruct e; try discriminate. cbn [missing_key field find_workload_loop py_getitem].
  destruct (assoc "name" fields) as [n |]; cbn [rbind].
  - destruct (eq_str n name); [| discriminate].
    destruct (assoc "namespace" fields); [discriminate |].
    intro H. injection H as <-. reflexivity.
  - intro H. injection H as <-. reflexivity.
Qed.

Lemma record_stepped_over name namespace e :
  is_record e = true -> matches name namespace e = false ->
  stepped_over name namespace e = true.
Proof.
  unfold is_record, matches, stepped_over.
  destruct (field "name" e) as [n |]; [| discriminate].
  destruct (field "namespace" e) as [s |]; [| discriminate].
  intros _ H. destruct (eq_str n name); [| reflexivity].
  cbn [andb] in H. now rewrite H.
Qed.

Lemma find_workload_scans data ws name namespace w :
  field "workloads" data = Some (PyList ws) ->
  find_workload data name namespace w = (find_workload_loop ws name namespace, w).
Proof.
  destruct data; try discriminate. cbn [field]. intro H.
  unfold find_workload, bind, lift. cbn [py_in py_getitem]. rewrite H. reflexivity.
Qed.

(** C5.  The locator returns the first record, in input order, whose name
    and namespace both equal the targets; records after it, duplicates of
    it included, are not looked at. *)
Theorem first_match_wins data pre workload post name namespace w :
  field "workloads" data = Some (PyList (pre ++ workload :: post)) ->
  Forall (fun e => is_record e = true /\ matches name namespace e = false) pre ->
  matches name namespace workload = true ->
  find_workload data name namespace w = (Ok workload, w).
Proof.
  intros Hd Hpre Hm. rewrite (find_workload_scans _ _ _ _ _ Hd).
  rewrite loop_steps_over.
  - now rewrite loop_match.
  - eapply Forall_impl; [| exact Hpre].
    intros e [Hr Hn]. now apply record_stepped_over.
Qed.

(** C10, as the code has it.  The scan reads [name] of every element up to
    the first match and [namespace] only of those whose name is the target:
    a dict without [name], or with the target name and without [namespace],
    makes the scan raise KeyError for that key, whatever follows it; an
    element with another name is passed without its [namespace] being
    read. *)
Theorem scan_reads_name_then_namespace data pre e post name namespace key w :
  field "workloads" data = Some (PyList (pre ++ e :: post)) ->
  Forall (fun x => stepped_over name namespace x = true) pre ->
  missing_key name e = Some key ->
  find_workload data name namespace w = (Raise (KeyError key), w)
  /\ (forall x n rest, field "name" x = Some n -> eq_str n name = false ->
        find_workload_loop (x :: rest) name namespace
        = find_workload_loop rest name namespace).
Proof.
  intros Hd Hpre Hk. split.
  - rewrite (find_workload_scans _ _ _ _ _ Hd), loop_steps_over by exact Hpre.
    now rewrite (loop_missing _ _ _ _ _ Hk).
  - intros x n rest Hn Hne. cbn [find_workload_loop].
    apply getitem_field in Hn. rewrite Hn. cbn [rbind]. now rewrite Hne.
Qed.

(** ** Runs that end without a patch *)

Lemma main_after_fetch args data w :
  curl (arg_cluster_id args) (arg_api_key args) = Body data ->
  main args w =
  (workload <- find_workload data (arg_name args) (arg_namespace args) ;;
   if negb (truthy workload) then
     print_err ("Workload '" ++ arg_name args ++ "' not found in namespace '"
                ++ arg_namespace args ++ "'") ;;
     sys_exit 1
   else
     patch <- create_kubernetes_patch workload (arg_container args) ;;
     if negb (truthy patch) then
       print_err ("No recommendations found for workload '" ++ arg_name args ++ "'") ;;
       sys_exit 1
     else
       match given (arg_output_file args) with
       | Some path =>
           write_file path (Dumps patch (if arg_pretty args then Some 2 else None)) ;;
           print (Plain ("Patch written to " ++ path))
       | None => print (Dumps patch (if arg_pretty args then Some 2 else None))
       end) w.
Proof.
  intro H. unfold main, fetch_cast_workloads. rewrite H. reflexivity.
Qed.

Lemma no_element_is key items :
  Forall (fun i => i <> PyStr key) items ->
  existsb (fun i => eq_str i key) items = false.
Proof.
  induction 1 as [| i items Hi _ IH]; [reflexivity |].
  cbn [existsb]. rewrite IH, orb_false_r.
  destruct (eq_str i key) eqn:E; [| reflexivity].
  apply eq_str_true in E. contradiction.
Qed.

(** C6, as the code has it.  A fetched object without a [workloads] field,
    and likewise a list that does not hold the text [workloads] or a text
    it does not occur in, ends the run in the locator with the format
    message and status 1.  On [null], a boolean or a number the test of
    line 30 itself raises TypeError and no message is printed.  A
    [workloads] list of records none of which matches makes the locator
    return [None], no exception, and the run ends with the not-found
    message and status 1.  None of these runs writes to standard output or
    to a file. *)
Theorem locator_failures args data w :
  curl (arg_cluster_id args) (arg_api_key args) = Body data ->
  ((exists fields, data = PyDict fields /\ assoc "workloads" fields = None)
   \/ (exists items, data = PyList items
                     /\ Forall (fun i => i <> PyStr "workloads") items)
   \/ (exists s, data = PyStr s /\ occurs "workloads" s = false) ->
     find_workload data (arg_name args) (arg_namespace args) w
     = (Raise (SystemExit 1),
        World (stdout w)
          (stderr w ++ ["Unexpected API response format: 'workloads' field not found"])
          (files w))
     /\ main args w
     = (Raise (SystemExit 1),
        World (stdout w)
          (stderr w ++ ["Unexpected API response format: 'workloads' field not found"])
          (files w)))
  /\
  (data = PyNone \/ (exists b, data = PyBool b) \/ (exists n, data = PyInt n)
   \/ (exists x, data = PyFloat x) ->
     find_workload data (arg_name args) (arg_namespace args) w = (Raise TypeError, w)
     /\ main args w = (Raise TypeError, w))
  /\
  (forall ws, field "workloads" data = Some (PyList ws) ->
     Forall (fun e => is_record e = true
                      /\ matches (arg_name args) (arg_namespace args) e = false) ws ->
     find_workload data (arg_name args) (arg_namespace args) w = (Ok PyNone, w)
     /\ main args w
     = (Raise (SystemExit 1),
        World (stdout w)
          (stderr w ++ ["Workload '" ++ arg_name args ++ "' not found in namespace '"
                        ++ arg_namespace args ++ "'"])
          (files w))).
Proof.
  intro Hc. split; [| split].
  - intro Hd.
    assert (P : py_in "workloads" data = Ok false).
    { destruct Hd as [(fields & -> & Hf) | [(items & -> & Hi) | (s & -> & Hs)]];
        cbn [py_in].
      - now rewrite Hf.
      - now rewrite (no_element_is _ _ Hi).
      - now rewrite Hs. }
    assert (E : find_workload data (arg_name args) (arg_namespace args) w
                = (Raise (SystemExit 1),
                   World (stdout w)
                     (stderr w ++ ["Unexpected API response format: 'workloads' field not found"])
                     (files w))).
    { unfold find_workload, bind, lift. rewrite P. reflexivity. }
    split; [exact E |].
    rewrite (main_after_fetch _ _ _ Hc). unfold bind at 1. now rewrite E.
  - intro Hd.
    assert (E : find_workload data (arg_name args) (arg_namespace args) w
                = (Raise TypeError, w)).
    { destruct Hd as [-> | [(b & ->) | [(n & ->) | (x & ->)]]]; reflexivity. }
    split; [exact E |].
    rewrite (main_after_fetch _ _ _ Hc). unfold bind at 1. now rewrite E.
  - intros ws Hd Hws.
    assert (E : find_workload data (arg_name args) (arg_namespace args) w = (Ok PyNone, w)).
    { rewrite (find_workload_scans _ _ _ _ _ Hd).
      rewrite <- (app_nil_r ws), loop_steps_over; [reflexivity |].
      eapply Forall_impl; [| exact Hws].
      intros e [Hr Hn]. now apply record_stepped_over. }
    split; [exact E |].
    rewrite (main_after_fetch _ _ _ Hc). unfold bind at 1. now rewrite E.
Qed.

Lemma given_nonempty s : s <> "" -> given (Some s) = Some s.
Proof.
  intro H. unfold given. destruct (String.eqb_spec s ""); [contradiction | reflexivity].
Qed.

Lemma containers_named_none all wanted :
  Forall (fun c => exists n, field "name" c = Some n /\ n <> PyStr wanted) all ->
  containers_named all wanted = Ok [].
Proof.
  induction 1 as [| c all (n & Hn & Hne) _ IH]; [reflexivity |].
  cbn [containers_named]. apply getitem_field in Hn. rewrite Hn. cbn [rbind].
  destruct (eq_str n wanted) eqn:E; [| exact IH].
  apply eq_str_true in E. contradiction.
Qed.

(** C7, as the code has it.  When a non-empty container name is asked for
    and no container of the record bears it, the builder reports
    [Container '...' not found in workload], returns [None], and the run
    ends with status 1 and nothing written to standard output or a file. *)
Theorem unknown_container_gives_no_patch workload wanted kind name namespace all w :
  wanted <> "" ->
  field "kind" workload = Some kind ->
  field "name" workload = Some name ->
  field "namespace" workload = Some namespace ->
  field "containers" workload = Some (PyList all) ->
  Forall (fun c => exists n, field "name" c = Some n /\ n <> PyStr wanted) all ->
  create_kubernetes_patch workload (Some wanted) w
  = (Ok PyNone,
     World (stdout w)
       (stderr w ++ ["Container '" ++ wanted ++ "' not found in workload"])
       (files w))
  /\ (forall args data,
        arg_container args = Some wanted ->
        curl (arg_cluster_id args) (arg_api_key args) = Body data ->
        find_workload data (arg_name args) (arg_namespace args) w = (Ok workload, w) ->
        main args w
        = (Raise (SystemExit 1),
           World (stdout w)
             (stderr w ++ ["Container '" ++ wanted ++ "' not found in workload"]
                ++ ["No recommendations found for workload '" ++ arg_name args ++ "'"])
             (files w))
        /\ exit_code (fst (main args w)) = 1).
Proof.
  intros Hw Hk Hn Hs Hc Hall.
  assert (E : create_kubernetes_patch workload (Some wanted) w
              = (Ok PyNone,
                 World (stdout w)
                   (stderr w ++ ["Container '" ++ wanted ++ "' not found in workload"])
                   (files w))).
  { unfold create_kubernetes_patch.
    rewrite (truthy_field_some _ _ _ Hk). cbn [negb].
    apply getitem_field in Hk, Hn, Hs, Hc.
    unfold bind, lift. rewrite Hk, Hn, Hs, (given_nonempty _ Hw), Hc.
    cbn [py_iter]. rewrite (containers_named_none _ _ Hall). reflexivity. }
  split; [exact E |].
  intros args data Ha Hcurl Hf.
  assert (M : main args w
              = (Raise (SystemExit 1),
                 World (stdout w)
                   (stderr w ++ ["Container '" ++ wanted ++ "' not found in workload"]
                      ++ ["No recommendations found for workload '" ++ arg_name args ++ "'"])
                   (files w))).
  { rewrite (main_after_fetch _ _ _ Hcurl). unfold bind at 1. rewrite Hf.
    rewrite (truthy_field_some _ _ _ Hk). cbn [negb].
    unfold bind at 1. rewrite Ha, E. cbn [truthy negb].
    unfold bind, print_err, sys_exit. cbn [stdout stderr files].
    now rewrite <- app_assoc. }
  split; [exact M | now rewrite M].
Qed.

(** ** What the patch holds *)

Lemma considered_truthy workload container_name cs :
  considered workload container_name = Ok cs -> truthy workload = true.
Proof.
  unfold considered.
  destruct (py_getitem workload "containers") as [cv |] eqn:H; [| discriminate].
  intros _. apply getitem_field in H. exact (truthy_field_some _ _ _ H).
Qed.

(** The blocks of a returned patch are the blocks of the considered
    containers that [attaches] keeps, in their order. *)
Lemma create_blocks workload container_name w patch w' cs :
  create_kubernetes_patch workload container_name w = (Ok patch, w') ->
  considered workload container_name = Ok cs ->
  Forall2 block_of (filter attaches cs) (patched patch).
Proof.
  intros H Hc. apply create_ok in H.
  destruct H as [(Ht & _) | (kind & name & ns & cs' & blocks & _ & _ & _ & Hc' & Hb & -> & _)].
  - rewrite (considered_truthy _ _ _ Hc) in Ht. discriminate.
  - rewrite Hc in Hc'. injection Hc' as <-.
    rewrite patched_blocks. now apply patch_containers_spec.
Qed.

Lemma considered_of_list workload container_name all cs :
  field "containers" workload = Some (PyList all) ->
  considered workload container_name = Ok cs ->
  subsequence cs all.
Proof.
  intros Hf. unfold considered. apply getitem_field in Hf. rewrite Hf.
  cbn [rbind py_iter]. destruct (given container_name) as [wanted |].
  - apply containers_named_subsequence.
  - intro H. injection H as <-. apply subsequence_refl.
Qed.

Lemma create_considers workload container_name w patch w' all :
  create_kubernetes_patch workload container_name w = (Ok patch, w') ->
  field "containers" workload = Some (PyList all) ->
  exists cs, considered workload container_name = Ok cs /\ subsequence cs all.
Proof.
  intros H Hf. apply create_ok in H.
  destruct H as [(Ht & _) | (kind & name & ns & cs & blocks & _ & _ & _ & Hc & _)].
  - rewrite (truthy_field_some _ _ _ Hf) in Ht. discriminate.
  - exists cs. split; [exact Hc | exact (considered_of_list _ _ _ _ Hf Hc)].
Qed.

Lemma toward_zero_nonneg q : (0 <= q)%Q -> toward_zero q = Qfloor q.
Proof.
  intro H. unfold toward_zero. apply Qle_bool_iff in H. now rewrite H.
Qed.

Lemma toward_zero_int n k : toward_zero (inject_Z n * inject_Z k) = n * k.
Proof.
  rewrite <- inject_Z_mult. unfold toward_zero.
  destruct (Qle_bool 0 (inject_Z (n * k))).
  - apply Qfloor_Z.
  - unfold Qceiling. change (- inject_Z (n * k))%Q with (inject_Z (- (n * k))).
    rewrite Qfloor_Z. lia.
Qed.

(** The integer in the memory quantity of a number of GiB. *)
Lemma mebibytes_of_number g q p z :
  number_value g = Some q -> py_mul g 1024 = Ok p -> py_int p = Ok z ->
  z = toward_zero (q * 1024).
Proof.
  destruct g; try discriminate; cbn [number_value].
  - intro H. injection H as <-. cbn [py_mul]. intro H. injection H as <-.
    cbn [py_int]. intro H. injection H as <-.
    symmetry. apply (toward_zero_int n 1024).
  - destruct (Float64.valid x) eqn:Hv; [| discriminate].
    intros Hq Hm Hi.
    assert (Hx : q = Float64.to_Q x) by (destruct x; try discriminate; congruence).
    subst q. cbn [py_mul] in Hm.
    change (Float64.of_int 1024) with (S754_finite false 4503599627370496 (-42)) in Hm.
    cbn iota in Hm. injection Hm as <-. cbn [py_int] in Hi.
    exact (trunc_mul_1024 _ _ Hv Hi).
Qed.

(** C1, as the code has it.  The memory quantity of a considered
    container is the decimal text of the number of GiB times 1024, cut
    towards zero, followed by [Mi]; for a value that is not negative this
    is [floor (g * 1024)], and for an int the product itself. *)
Theorem memory_is_mebibytes_toward_zero
  workload container_name w patch w' cs c key rec sec g q :
  create_kubernetes_patch workload container_name w = (Ok patch, w') ->
  considered workload container_name = Ok cs ->
  In c cs ->
  key = "requests" \/ key = "limits" ->
  field "recommendation" c = Some rec ->
  field key rec = Some sec ->
  field "memoryGib" sec = Some g ->
  number_value g = Some q ->
  (exists b, In b (patched patch) /\ field "name" b = field "name" c /\
     path ["resources"; key; "memory"] b
     = Some (PyStr (decimal (toward_zero (q * 1024)) ++ "Mi")))
  /\ ((0 <= q)%Q -> toward_zero (q * 1024) = Qfloor (q * 1024)).
Proof.
  intros H Hc Hin Hk Hr Hs Hg Hq. split.
  - pose proof (create_blocks _ _ _ _ _ _ H Hc) as Hb.
    assert (Ha : In c (filter attaches cs)).
    { apply filter_In. split; [exact Hin |].
      exact (attaches_section _ _ _ _ Hk Hr Hs (section_truthy _ _ _ Hg)). }
    destruct (Forall2_In_l _ _ _ _ Hb Ha) as (b & Hbin & Hblock).
    exists b. split; [exact Hbin |]. split.
    + destruct (block_name _ _ Hblock) as (n & -> & ->). reflexivity.
    + destruct (block_memory _ _ _ _ _ _ Hblock Hk Hr Hs Hg) as (p & z & Hm & Hi & Hp).
      now rewrite <- (mebibytes_of_number _ _ _ _ Hq Hm Hi).
  - intro H0. apply toward_zero_nonneg.
    change 0%Q with (0 * 1024)%Q. now apply Qmult_le_compat_r.
Qed.

(** C3.  The cpu quantity of a considered container is [str] of its
    [cpuCores], under the section it comes from: the decimal digits of an
    int, the shortest decimal that reads back as the same float. *)
Theorem cpu_is_copied_verbatim
  workload container_name w patch w' cs c key rec sec cores :
  create_kubernetes_patch workload container_name w = (Ok patch, w') ->
  considered workload container_name = Ok cs ->
  In c cs ->
  key = "requests" \/ key = "limits" ->
  field "recommendation" c = Some rec ->
  field key rec = Some sec ->
  field "cpuCores" sec = Some cores ->
  (exists b, In b (patched patch) /\ field "name" b = field "name" c /\
     path ["resources"; key; "cpu"] b = Some (PyStr (py_str cores)))
  /\ (forall n, cores = PyInt n -> py_str cores = decimal n)
  /\ (forall x, cores = PyFloat x -> py_str cores = Float64.repr x).
Proof.
  intros H Hc Hin Hk Hr Hs Hv. split; [| split; intros ? ->; reflexivity].
  pose proof (create_blocks _ _ _ _ _ _ H Hc) as Hb.
  assert (Ha : In c (filter attaches cs)).
  { apply filter_In. split; [exact Hin |].
    exact (attaches_section _ _ _ _ Hk Hr Hs (section_truthy _ _ _ Hv)). }
  destruct (Forall2_In_l _ _ _ _ Hb Ha) as (b & Hbin & Hblock).
  exists b. split; [exact Hbin |]. split.
  - destruct (block_name _ _ Hblock) as (n & -> & ->). reflexivity.
  - exact (block_cpu _ _ _ _ _ _ Hblock Hk Hr Hs Hv).
Qed.

Lemma Forall2_weaken {A B} (R R' : A -> B -> Prop) l l' :
  (forall a b, R a b -> R' a b) -> Forall2 R l l' -> Forall2 R' l l'.
Proof. intros HR; induction 1; constructor; auto. Qed.

(** X14.  What the test of line 115 comes to.  The blocks of the patch
    are, one for one and in order, the considered containers whose
    recommendation is a true value with a true [requests] or a true
    [limits]; a block has a section exactly when that section of the
    recommendation is a true value.  The test looks at the sections, not
    at the quantities taken from them.  A container whose [requests] and
    [limits] are both empty has no block. *)
Theorem attached_iff_section_present workload container_name w patch w' cs :
  create_kubernetes_patch workload container_name w = (Ok patch, w') ->
  considered workload container_name = Ok cs ->
  Forall2
    (fun c b =>
       field "name" b = field "name" c /\
       forall key rec, key = "requests" \/ key = "limits" ->
         field "recommendation" c = Some rec ->
         (field_truthy key rec = true <-> path ["resources"; key] b <> None))
    (filter attaches cs) (patched patch)
  /\ (forall c rec, field "recommendation" c = Some rec ->
        field "requests" rec = Some (PyDict []) ->
        field "limits" rec = Some (PyDict []) ->
        attaches c = false).
Proof.
  intros H Hc. split.
  - eapply Forall2_weaken; [| exact (create_blocks _ _ _ _ _ _ H Hc)].
    intros c b Hb. split.
    + destruct (block_name _ _ Hb) as (n & -> & ->). reflexivity.
    + intros key rec Hk Hr.
      destruct Hb as (name & rec' & reqs & lims & _ & Hr' & _ & Hq & Hl & ->).
      rewrite Hr in Hr'. injection Hr' as <-.
      pose proof (section_entry_truthy _ _ _ _ Hq Hr) as Tq.
      pose proof (section_entry_truthy _ _ _ _ Hl Hr) as Tl.
      destruct (section_entry_spec _ _ _ _ Hq Hr) as [[_ ->] | (sq & qq & _ & _ & _ & ->)];
      destruct (section_entry_spec _ _ _ _ Hl Hr) as [[_ ->] | (sl & ql & _ & _ & _ & ->)];
      destruct Hk as [-> | ->]; rewrite ?Tq, ?Tl; cbn;
      split; intro X; try discriminate; try reflexivity; try (now elim X).
  - intros c rec Hr Hq Hl. unfold attaches, field_truthy.
    rewrite Hr, Hq, Hl. cbn. apply andb_false_r.
Qed.

(** C8.  Every block of the patch comes from a container of the workload
    that has a recommendation which is a true value: a container with no
    [recommendation] field, or a [null] one, has no block. *)
Theorem unrecommended_container_has_no_block workload container_name w patch w' all :
  create_kubernetes_patch workload container_name w = (Ok patch, w') ->
  field "containers" workload = Some (PyList all) ->
  exists emitted,
    subsequence emitted all /\
    Forall2 (fun c b => field "name" b = field "name" c) emitted (patched patch) /\
    Forall (fun c => exists r, field "recommendation" c = Some r /\ r <> PyNone
                               /\ truthy r = true) emitted.
Proof.
  intros H Hf.
  destruct (create_considers _ _ _ _ _ _ H Hf) as (cs & Hc & Hsub).
  pose proof (create_blocks _ _ _ _ _ _ H Hc) as Hb.
  exists (filter attaches cs). split; [now apply subsequence_filter |]. split.
  - eapply Forall2_weaken; [| exact Hb].
    intros c b Hcb. destruct (block_name _ _ Hcb) as (n & -> & ->). reflexivity.
  - clear -Hb. induction Hb as [| c b l l' Hcb _ IH]; constructor; [| exact IH].
    destruct (block_recommendation _ _ Hcb) as (r & Hr & Ht).
    exists r. repeat split; try assumption. intros ->. discriminate.
Qed.

(** C9.  The names of the blocks of the patch are the names of the
    attached containers, which stand in the patch in the order they have
    among the containers of the workload. *)
Theorem blocks_keep_container_order workload container_name w patch w' all :
  create_kubernetes_patch workload container_name w = (Ok patch, w') ->
  field "containers" workload = Some (PyList all) ->
  exists cs,
    considered workload container_name = Ok cs /\
    subsequence (filter attaches cs) all /\
    map (field "name") (patched patch) = map (field "name") (filter attaches cs).
Proof.
  intros H Hf.
  destruct (create_considers _ _ _ _ _ _ H Hf) as (cs & Hc & Hsub).
  pose proof (create_blocks _ _ _ _ _ _ H Hc) as Hb.
  exists cs. split; [exact Hc |]. split; [now apply subsequence_filter |].
  induction Hb as [| c b l l' Hcb _ IH]; [reflexivity |].
  cbn [map]. rewrite IH. destruct (block_name _ _ Hcb) as (n & -> & ->). reflexivity.
Qed.

(** * Further properties of the script *)

(** ** What a run can write and how it can end *)

(** A result that is not a [sys.exit]. *)
Definition no_exit {A : Type} (r : result A) : Prop :=
  forall code, r <> Raise (SystemExit code).

(** A statement sequence that writes neither to standard output nor to a
    file and that leaves through [sys.exit] with status 1 only. *)
Definition quiet {A : Type} (c : io A) : Prop :=
  forall w,
    stdout (snd (c w)) = stdout w /\ files (snd (c w)) = files w
    /\ (forall code, fst (c w) = Raise (SystemExit code) -> code = 1).

Lemma no_exit_ok {A} (a : A) : no_exit (Ok a).
Proof. intros code H. discriminate H. Qed.

Lemma no_exit_bind {A B} (r : result A) (k : A -> result B) :
  no_exit r -> (forall a, no_exit (k a)) -> no_exit (rbind r k).
Proof.
  intros Hr Hk. destruct r as [a | e]; cbn [rbind]; [apply Hk |].
  intros code H. injection H as ->. exact (Hr code eq_refl).
Qed.

Lemma no_exit_in key v : no_exit (py_in key v).
Proof. destruct v; intros code H; discriminate H. Qed.

Lemma no_exit_getitem v key : no_exit (py_getitem v key).
Proof.
  destruct v; intros code H; try discriminate H.
  cbn in H. destruct (assoc key fields); discriminate H.
Qed.

Lemma no_exit_get v key : no_exit (py_get v key).
Proof.
  destruct v; intros code H; try discriminate H.
  cbn in H. destruct (assoc key fields); discriminate H.
Qed.

Lemma no_exit_iter v : no_exit (py_iter v).
Proof. destruct v; intros code H; discriminate H. Qed.

Lemma no_exit_mul v n : no_exit (py_mul v n).
Proof.
  destruct v; intros code H; try discriminate H.
  cbn in H. destruct (Float64.of_int n); discriminate H.
Qed.

Lemma no_exit_int v : no_exit (py_int v).
Proof.
  destruct v; intros code H; try discriminate H; cbn in H.
  - destruct x; discriminate H.
  - destruct (int_of_text s); discriminate H.
Qed.

Lemma no_exit_if {A} (b : bool) (r r' : result A) :
  no_exit r -> no_exit r' -> no_exit (if b then r else r').
Proof. destruct b; auto. Qed.

Lemma no_exit_quantities section : no_exit (quantities section).
Proof.
  unfold quantities.
  apply no_exit_bind; [apply no_exit_in | intro has_cpu].
  apply no_exit_bind.
  { apply no_exit_if; [| apply no_exit_ok].
    apply no_exit_bind; [apply no_exit_getitem | intro; apply no_exit_ok]. }
  intro cpu. apply no_exit_bind; [apply no_exit_in | intro has_memory].
  apply no_exit_bind; [| intro; apply no_exit_ok].
  apply no_exit_if; [| apply no_exit_ok].
  apply no_exit_bind; [apply no_exit_getitem | intro gib].
  apply no_exit_bind; [apply no_exit_mul | intro product].
  apply no_exit_bind; [apply no_exit_int | intro; apply no_exit_ok].
Qed.

Lemma no_exit_section_entry container key : no_exit (section_entry container key).
Proof.
  unfold section_entry.
  apply no_exit_bind; [apply no_exit_getitem | intro rec].
  apply no_exit_bind; [apply no_exit_get | intro present].
  apply no_exit_if; [| apply no_exit_ok].
  apply no_exit_bind; [apply no_exit_getitem | intro rec'].
  apply no_exit_bind; [apply no_exit_getitem | intro sec].
  apply no_exit_bind; [apply no_exit_quantities | intro; apply no_exit_ok].
Qed.

Lemma no_exit_container_patch container : no_exit (container_patch container).
Proof.
  unfold container_patch.
  apply no_exit_bind; [apply no_exit_get | intro rec].
  apply no_exit_if; [apply no_exit_ok |].
  apply no_exit_bind; [apply no_exit_getitem | intro name].
  apply no_exit_bind; [apply no_exit_section_entry | intro reqs].
  apply no_exit_bind; [apply no_exit_section_entry | intro lims].
  apply no_exit_if; apply no_exit_ok.
Qed.

Lemma no_exit_patch_containers cs : no_exit (patch_containers cs).
Proof.
  induction cs as [| c rest IH]; cbn [patch_containers]; [apply no_exit_ok |].
  apply no_exit_bind; [apply no_exit_container_patch | intro block].
  apply no_exit_bind; [exact IH | intro; apply no_exit_ok].
Qed.

Lemma no_exit_containers_named items wanted : no_exit (containers_named items wanted).
Proof.
  induction items as [| c rest IH]; cbn [containers_named]; [apply no_exit_ok |].
  apply no_exit_bind; [apply no_exit_getitem | intro n].
  apply no_exit_if; [apply no_exit_ok | exact IH].
Qed.

Lemma no_exit_loop ws name namespace : no_exit (find_workload_loop ws name namespace).
Proof.
  induction ws as [| x rest IH]; cbn [find_workload_loop]; [apply no_exit_ok |].
  apply no_exit_bind; [apply no_exit_getitem | intro n].
  apply no_exit_if; [| exact IH].
  apply no_exit_bind; [apply no_exit_getitem | intro s].
  apply no_exit_if; [apply no_exit_ok | exact IH].
Qed.

Lemma quiet_ret {A} (a : A) : quiet (ret a).
Proof. intro w. cbn. repeat split. intros code H. discriminate H. Qed.

Lemma quiet_lift {A} (r : result A) : no_exit r -> quiet (lift r).
Proof. intros Hr w. cbn. repeat split. intros code H. elim (Hr code H). Qed.

Lemma quiet_print_err s : quiet (print_err s).
Proof. intro w. cbn. repeat split. intros code H. discriminate H. Qed.

Lemma quiet_exit {A} : quiet (@sys_exit A 1).
Proof. intro w. cbn. repeat split. intros code H. now injection H as <-. Qed.

Lemma quiet_bind {A B} (c : io A) (k : A -> io B) :
  quiet c -> (forall a, quiet (k a)) -> quiet (bind c k).
Proof.
  intros Hc Hk w. unfold bind. specialize (Hc w).
  destruct (c w) as [[a | e] w1]; cbn [fst snd] in *.
  - destruct Hc as (Ho & Hf & _). specialize (Hk a w1).
    destruct Hk as (Ho' & Hf' & Hx). rewrite Ho', Hf'. auto.
  - destruct Hc as (Ho & Hf & Hx). repeat split; try assumption.
    intros code H. injection H as ->. now apply Hx.
Qed.

Lemma quiet_if {A} (b : bool) (c c' : io A) :
  quiet c -> quiet c' -> quiet (if b then c else c').
Proof. destruct b; auto. Qed.

Lemma quiet_find_workload data name namespace :
  quiet (find_workload data name namespace).
Proof.
  unfold find_workload.
  apply quiet_bind; [apply quiet_lift, no_exit_in | intro present].
  apply quiet_if.
  - apply quiet_bind; [apply quiet_print_err | intro; apply quiet_exit].
  - apply quiet_bind; [apply quiet_lift, no_exit_getitem | intro ws].
    apply quiet_bind; [apply quiet_lift, no_exit_iter | intro items].
    apply quiet_lift, no_exit_loop.
Qed.

Lemma quiet_fetch cluster_id api_key : quiet (fetch_cast_workloads cluster_id api_key).
Proof.
  unfold fetch_cast_workloads. destruct (curl cluster_id api_key) as [e err | | data].
  - apply quiet_bind; [apply quiet_print_err | intro].
    apply quiet_bind; [| intro; apply quiet_exit].
    apply quiet_if; [apply quiet_print_err | apply quiet_ret].
  - apply quiet_bind; [apply quiet_print_err | intro; apply quiet_exit].
  - apply quiet_ret.
Qed.

Lemma quiet_build_patch kind name namespace cs : quiet (build_patch kind name namespace cs).
Proof.
  unfold build_patch.
  apply quiet_bind; [apply quiet_lift, no_exit_patch_containers | intro blocks].
  destruct blocks; apply quiet_ret.
Qed.

Lemma quiet_create workload container_name :
  quiet (create_kubernetes_patch workload container_name).
Proof.
  unfold create_kubernetes_patch.
  apply quiet_if; [apply quiet_ret |].
  apply quiet_bind; [apply quiet_lift, no_exit_getitem | intro kind].
  apply quiet_bind; [apply quiet_lift, no_exit_getitem | intro name].
  apply quiet_bind; [apply quiet_lift, no_exit_getitem | intro namespace].
  destruct (given container_name) as [wanted |].
  - apply quiet_bind; [apply quiet_lift, no_exit_getitem | intro containers].
    apply quiet_bind; [apply quiet_lift, no_exit_iter | intro items].
    apply quiet_bind; [apply quiet_lift, no_exit_containers_named | intro sel].
    destruct sel.
    + apply quiet_bind; [apply quiet_print_err | intro; apply quiet_ret].
    + apply quiet_build_patch.
  - apply quiet_bind; [apply quiet_lift, no_exit_getitem | intro containers].
    apply quiet_bind; [apply quiet_lift, no_exit_iter | intro items].
    apply quiet_build_patch.
Qed.

(** Lines 136-149 of [main]: the patch the run is to put out. *)
Definition main_patch (args : arguments) : io pyval :=
  workloads_data <- fetch_cast_workloads (arg_cluster_id args) (arg_api_key args) ;;
  workload <- find_workload workloads_data (arg_name args) (arg_namespace args) ;;
  if negb (truthy workload) then
    print_err ("Workload '" ++ arg_name args ++ "' not found in namespace '"
               ++ arg_namespace args ++ "'") ;;
    sys_exit 1
  else
    patch <- create_kubernetes_patch workload (arg_container args) ;;
    if negb (truthy patch) then
      print_err ("No recommendations found for workload '" ++ arg_name args ++ "'") ;;
      sys_exit 1
    else ret patch.

(** Lines 151-160 of [main]: the patch put out. *)
Definition main_output (args : arguments) (patch : pyval) : io unit :=
  let indent := if arg_pretty args then Some 2 else None in
  let patch_json := Dumps patch indent in
  match given (arg_output_file args) with
  | Some path =>
      write_file path patch_json ;;
      print (Plain ("Patch written to " ++ path))
  | None => print patch_json
  end.

Lemma main_stages args w :
  main args w = (patch <- main_patch args ;; main_output args patch) w.
Proof.
  unfold main, main_patch, main_output, bind.
  destruct (fetch_cast_workloads (arg_cluster_id args) (arg_api_key args) w)
    as [[data | e] w1]; [| reflexivity].
  destruct (find_workload data (arg_name args) (arg_namespace args) w1)
    as [[workload | e] w2]; [| reflexivity].
  destruct (negb (truthy workload)); [reflexivity |].
  destruct (create_kubernetes_patch workload (arg_container args) w2)
    as [[patch | e] w3]; [| reflexivity].
  destruct (negb (truthy patch)); reflexivity.
Qed.

Lemma quiet_main_patch args : quiet (main_patch args).
Proof.
  unfold main_patch.
  apply quiet_bind; [apply quiet_fetch | intro data].
  apply quiet_bind; [apply quiet_find_workload | intro workload].
  apply quiet_if.
  { apply quiet_bind; [apply quiet_print_err | intro; apply quiet_exit]. }
  apply quiet_bind; [apply quiet_create | intro patch].
  apply quiet_if; [| apply quiet_ret].
  apply quiet_bind; [apply quiet_print_err | intro; apply quiet_exit].
Qed.

(** X1.  Up to line 149 a run writes to standard error only.  Whatever
    the fetching, the locating and the building come to, nothing has
    reached standard output or a file when they are done; and when they
    end the run, by an exception of theirs or by one of the script's
    [sys.exit] calls, the run ends there, with status 1. *)
Theorem nothing_written_before_the_output args w r w' :
  main_patch args w = (r, w') ->
  stdout w' = stdout w /\ files w' = files w
  /\ (forall e, r = Raise e ->
        main args w = (Raise e, w') /\ exit_code (@Raise unit e) = 1).
Proof.
  intro H. destruct (quiet_main_patch args w) as (Ho & Hf & Hx).
  rewrite H in Ho, Hf, Hx. cbn [fst snd] in Ho, Hf, Hx.
  split; [exact Ho | split; [exact Hf |]].
  intros e ->. split.
  - rewrite main_stages. unfold bind at 1. now rewrite H.
  - destruct e; try reflexivity. cbn. now apply Hx.
Qed.

Ltac raised lem E :=
  cbn; let code := fresh in let Hc := fresh in
  intros code Hc; injection Hc as ->; eapply lem; exact E.

Lemma create_no_exit workload container_name w :
  no_exit (fst (create_kubernetes_patch workload container_name w)).
Proof.
  unfold create_kubernetes_patch, build_patch, bind, lift, ret, print_err.
  destruct (truthy workload); cbn [negb]; [| (cbn; apply no_exit_ok)].
  destruct (py_getitem workload "kind") as [kind |] eqn:E1;
    [| raised no_exit_getitem E1].
  destruct (py_getitem workload "name") as [name |] eqn:E2;
    [| raised no_exit_getitem E2].
  destruct (py_getitem workload "namespace") as [ns |] eqn:E3;
    [| raised no_exit_getitem E3].
  destruct (given container_name) as [wanted |];
    (destruct (py_getitem workload "containers") as [cv |] eqn:E4;
      [| raised no_exit_getitem E4]);
    (destruct (py_iter cv) as [items |] eqn:E5;
      [| raised no_exit_iter E5]).
  - destruct (containers_named items wanted) as [sel |] eqn:E6;
      [| raised no_exit_containers_named E6].
    destruct sel as [| c sel]; [(cbn; apply no_exit_ok) |].
    destruct (patch_containers (c :: sel)) as [blocks |] eqn:E7;
      [| raised no_exit_patch_containers E7].
    destruct blocks; (cbn; apply no_exit_ok).
  - destruct (patch_containers items) as [blocks |] eqn:E7;
      [| raised no_exit_patch_containers E7].
    destruct blocks; (cbn; apply no_exit_ok).
Qed.

Lemma create_stderr workload container_name w r w' :
  create_kubernetes_patch workload container_name w = (r, w') ->
  stderr w' = stderr w
  \/ exists wanted,
       given container_name = Some wanted /\ r = Ok PyNone
       /\ stderr w'
          = (stderr w ++ [("Container '" ++ wanted ++ "' not found in workload")%string])%list.
Proof.
  unfold create_kubernetes_patch, build_patch, bind, lift, ret, print_err.
  destruct (truthy workload); cbn [negb];
    [| intro H; injection H as <- <-; now left].
  destruct (py_getitem workload "kind") as [kind |];
    [| intro H; injection H as <- <-; now left].
  destruct (py_getitem workload "name") as [name |];
    [| intro H; injection H as <- <-; now left].
  destruct (py_getitem workload "namespace") as [ns |];
    [| intro H; injection H as <- <-; now left].
  destruct (given container_name) as [wanted |];
    (destruct (py_getitem workload "containers") as [cv |];
      [| intro H; injection H as <- <-; now left]);
    (destruct (py_iter cv) as [items |]; [| intro H; injection H as <- <-; now left]).
  + destruct (containers_named items wanted) as [sel |];
      [| intro H; injection H as <- <-; now left].
    destruct sel as [| c sel].
    * intro H; injection H as <- <-. right. exists wanted. auto.
    * destruct (patch_containers (c :: sel)) as [blocks |];
        [| intro H; injection H as <- <-; now left].
      destruct blocks; intro H; injection H as <- <-; now left.
  + destruct (patch_containers items) as [blocks |];
      [| intro H; injection H as <- <-; now left].
    destruct blocks; intro H; injection H as <- <-; now left.
Qed.

(** X2.  The builder writes neither to standard output nor to a file and
    never calls [sys.exit]; it leaves standard error as it was, unless it
    reports the container it was asked for and did not find, and then it
    returns [None]. *)
Theorem builder_only_reports workload container_name w r w' :
  create_kubernetes_patch workload container_name w = (r, w') ->
  stdout w' = stdout w /\ files w' = files w
  /\ (forall code, r <> Raise (SystemExit code))
  /\ (stderr w' = stderr w
      \/ exists wanted,
           given container_name = Some wanted /\ r = Ok PyNone
           /\ stderr w'
              = (stderr w ++ [("Container '" ++ wanted ++ "' not found in workload")%string])%list).
Proof.
  intro H.
  destruct (quiet_create workload container_name w) as (Ho & Hf & _).
  pose proof (create_no_exit workload container_name w) as Hn.
  rewrite H in Ho, Hf, Hn. cbn [fst snd] in Ho, Hf, Hn.
  repeat split; try assumption. exact (create_stderr _ _ _ _ _ H).
Qed.

Lemma world_same w w' :
  stdout w' = stdout w -> stderr w' = stderr w -> files w' = files w -> w' = w.
Proof. destruct w, w'; cbn; intros -> -> ->; reflexivity. Qed.

Lemma find_ok_world data name namespace w v w' :
  find_workload data name namespace w = (Ok v, w') -> w' = w.
Proof.
  unfold find_workload, bind, lift, print_err, sys_exit.
  destruct (py_in "workloads" data) as [present |]; [| discriminate].
  destruct present; cbn [negb]; [| discriminate].
  destruct (py_getitem data "workloads") as [ws |]; [| discriminate].
  destruct (py_iter ws) as [items |]; [| discriminate].
  intro H. now injection H as _ <-.
Qed.

Lemma create_truthy_world workload container_name w patch w' :
  create_kubernetes_patch workload container_name w = (Ok patch, w') ->
  truthy patch = true -> w' = w.
Proof.
  intros H Ht.
  destruct (quiet_create workload container_name w) as (Ho & Hf & _).
  rewrite H in Ho, Hf. cbn [snd] in Ho, Hf.
  destruct (create_stderr _ _ _ _ _ H) as [He | (x & _ & Hn & _)].
  - now apply world_same.
  - injection Hn as ->. discriminate Ht.
Qed.

(** X3.  A run that ends normally has fetched a body, located a workload
    in it and built a patch that is a true value; it has written nothing
    to standard error, and exactly the one document: to standard output,
    or to the file it was given, followed by one line of confirmation on
    standard output. *)
Theorem successful_run_writes_one_document args w w' :
  main args w = (Ok tt, w') ->
  exists data workload patch,
    curl (arg_cluster_id args) (arg_api_key args) = Body data
    /\ find_workload data (arg_name args) (arg_namespace args) w = (Ok workload, w)
    /\ truthy workload = true
    /\ create_kubernetes_patch workload (arg_container args) w = (Ok patch, w)
    /\ truthy patch = true
    /\ w' = match given (arg_output_file args) with
            | Some path =>
                World (stdout w ++ [Plain ("Patch written to " ++ path)])
                  (stderr w)
                  (files w ++ [(path, Dumps patch (if arg_pretty args then Some 2 else None))])
            | None =>
                World (stdout w ++ [Dumps patch (if arg_pretty args then Some 2 else None)])
                  (stderr w) (files w)
            end.
Proof.
  destruct (curl (arg_cluster_id args) (arg_api_key args)) as [e err | | data] eqn:Hc.
  - unfold main, fetch_cast_workloads. rewrite Hc.
    unfold bind, print_err, sys_exit, ret. destruct (negb (err =? "")%string); discriminate.
  - unfold main, fetch_cast_workloads. rewrite Hc. discriminate.
  - rewrite (main_after_fetch _ _ _ Hc). unfold bind at 1.
    destruct (find_workload data (arg_name args) (arg_namespace args) w)
      as [[workload | e] w1] eqn:Hf; [| discriminate].
    pose proof (find_ok_world _ _ _ _ _ _ Hf) as ->.
    destruct (truthy workload) eqn:Tw; cbn [negb]; [| discriminate].
    unfold bind at 1.
    destruct (create_kubernetes_patch workload (arg_container args) w)
      as [[patch | e] w2] eqn:Hp; [| discriminate].
    destruct (truthy patch) eqn:Tp; cbn [negb]; [| discriminate].
    pose proof (create_truthy_world _ _ _ _ _ Hp Tp) as ->.
    intro H. exists data, workload, patch. repeat split; try assumption.
    destruct (given (arg_output_file args)) as [path |];
      cbn in H; now injection H as <-.
Qed.

(** X4.  When the transfer fails the run reports it on standard error,
    adds the message of the service only if there is one, and ends with
    status 1; when the body is not JSON it reports that and ends with
    status 1.  The locator is not reached. *)
Theorem failed_fetch_ends_the_run args w :
  (forall e err,
     curl (arg_cluster_id args) (arg_api_key args) = CalledProcessError e err ->
     main args w
     = (Raise (SystemExit 1),
        World (stdout w)
          (stderr w ++ ["Error fetching data from CAST.AI API: " ++ e]
             ++ (if (err =? "")%string then [] else ["API error message: " ++ err]))
          (files w)))
  /\ (curl (arg_cluster_id args) (arg_api_key args) = JSONDecodeError ->
      main args w
      = (Raise (SystemExit 1),
         World (stdout w) (stderr w ++ ["Error decoding JSON response from API"]) (files w))).
Proof.
  split.
  - intros e err Hc. unfold main, fetch_cast_workloads. rewrite Hc.
    unfold bind, print_err, sys_exit, ret.
    destruct (err =? "")%string; cbn; [reflexivity |].
    now rewrite <- app_assoc.
  - intro Hc. unfold main, fetch_cast_workloads. rewrite Hc. reflexivity.
Qed.

(** ** What the locator returns *)

Lemma loop_result ws name namespace v :
  find_workload_loop ws name namespace = Ok v ->
  (In v ws /\ matches name namespace v = true)
  \/ (v = PyNone /\ Forall (fun e => matches name namespace e = false) ws).
Proof.
  induction ws as [| x rest IH]; cbn [find_workload_loop].
  - intro H. injection H as <-. right. split; [reflexivity | constructor].
  - destruct (py_getitem x "name") as [n |] eqn:Hn; cbn [rbind]; [| discriminate].
    apply getitem_field in Hn.
    assert (Hrest : matches name namespace x = false ->
                    find_workload_loop rest name namespace = Ok v ->
                    (In v (x :: rest) /\ matches name namespace v = true)
                    \/ (v = PyNone
                        /\ Forall (fun e => matches name namespace e = false) (x :: rest))).
    { intros Hx H. destruct (IH H) as [[Hin Hm] | [-> Hall]].
      - left. split; [now right | exact Hm].
      - right. split; [reflexivity | now constructor]. }
    destruct (eq_str n name) eqn:En.
    + destruct (py_getitem x "namespace") as [s |] eqn:Hs; cbn [rbind]; [| discriminate].
      apply getitem_field in Hs.
      destruct (eq_str s namespace) eqn:Es.
      * intro H. injection H as <-. left. split; [now left |].
        unfold matches. now rewrite Hn, Hs, En, Es.
      * apply Hrest. unfold matches. rewrite Hn, Hs, En, Es. reflexivity.
    + apply Hrest. unfold matches. rewrite Hn.
      destruct (field "namespace" x); [now rewrite En | reflexivity].
Qed.

(** X5.  What the locator returns is [None] or an element of the
    [workloads] list whose name and namespace are the targets; it returns
    [None] only when no element of the list is such a record.  It writes
    nothing when it returns. *)
Theorem locator_returns_a_match_or_none data name namespace w v w' :
  find_workload data name namespace w = (Ok v, w') ->
  w' = w
  /\ ((exists ws, field "workloads" data = Some (PyList ws)
                  /\ In v ws /\ matches name namespace v = true)
      \/ (v = PyNone
          /\ forall ws, field "workloads" data = Some (PyList ws) ->
                        Forall (fun e => matches name namespace e = false) ws)).
Proof.
  intro H. split; [exact (find_ok_world _ _ _ _ _ _ H) |].
  revert H. unfold find_workload, bind, lift, print_err, sys_exit.
  destruct (py_in "workloads" data) as [present |]; [| discriminate].
  destruct present; cbn [negb]; [| discriminate].
  destruct (py_getitem data "workloads") as [wv |] eqn:Hw; [| discriminate].
  apply getitem_field in Hw.
  destruct (py_iter wv) as [items |] eqn:Hi; [| discriminate].
  intro H. injection H as H _.
  destruct (loop_result _ _ _ _ H) as [[Hin Hm] | [-> Hall]].
  - left. destruct wv; try discriminate Hi.
    + cbn in Hi. injection Hi as <-.
      apply in_map_iff in Hin. destruct Hin as (c & <- & _). discriminate Hm.
    + cbn in Hi. injection Hi as <-. exists items0. auto.
    + cbn in Hi. injection Hi as <-.
      apply in_map_iff in Hin. destruct Hin as (kv & <- & _). discriminate Hm.
  - right. split; [reflexivity |]. intros ws Hws.
    rewrite Hw in Hws. injection Hws as ->. cbn in Hi. now injection Hi as <-.
Qed.

(** ** What the builder returns *)

(** X6.  The builder returns [None] or a document with at least one
    container block: [apiVersion] is [apps/v1]; kind, name and namespace
    are those of the workload. *)
Theorem patch_is_none_or_has_blocks workload container_name w patch w' :
  create_kubernetes_patch workload container_name w = (Ok patch, w') ->
  patch = PyNone
  \/ exists kind name namespace,
       field "kind" workload = Some kind
       /\ field "name" workload = Some name
       /\ field "namespace" workload = Some namespace
       /\ patched patch <> []
       /\ patch
          = PyDict
              [("apiVersion", PyStr "apps/v1");
               ("kind", kind);
               ("metadata", PyDict [("name", name); ("namespace", namespace)]);
               ("spec", PyDict [("template", PyDict [("spec",
                  PyDict [("containers", PyList (patched patch))])])])].
Proof.
  intro H. apply create_ok in H.
  destruct H as [(_ & -> & _) | (kind & name & ns & cs & blocks & Hk & Hn & Hs & _ & _ & -> & _)];
    [now left |].
  destruct blocks as [| b blocks]; [now left |].
  right. exists kind, name, ns. repeat split; try assumption. discriminate.
Qed.

Lemma containers_named_first items wanted sel :
  containers_named items wanted = Ok sel ->
  (sel = []
   /\ Forall (fun x => exists n, field "name" x = Some n /\ n <> PyStr wanted) items)
  \/ exists pre c post,
       items = (pre ++ c :: post)%list /\ sel = [c]
       /\ field "name" c = Some (PyStr wanted)
       /\ Forall (fun x => exists n, field "name" x = Some n /\ n <> PyStr wanted) pre.
Proof.
  revert sel; induction items as [| x rest IH]; cbn [containers_named]; intros sel H.
  - injection H as <-. left. split; [reflexivity | constructor].
  - destruct (py_getitem x "name") as [n |] eqn:Hn; cbn [rbind] in H; [| discriminate].
    apply getitem_field in Hn.
    destruct (eq_str n wanted) eqn:En.
    + injection H as <-. right. exists [], x, rest.
      apply eq_str_true in En. subst n. repeat split; auto.
    + assert (Hx : exists m, field "name" x = Some m /\ m <> PyStr wanted).
      { exists n. split; [exact Hn |].
        intros ->. cbn in En. rewrite String.eqb_refl in En. discriminate. }
      destruct (IH _ H) as [[-> Hall] | (pre & c & post & -> & -> & Hc & Hpre)].
      * left. split; [reflexivity | now constructor].
      * right. exists (x :: pre), c, post. repeat split; auto.
Qed.

(** X7.  With a container name to filter by (one that is not empty), the
    builder looks at one container only, the first of the workload that
    bears the name: the patch holds the block that the loop body of lines
    76-116 builds from that container, and nothing else, or there is no
    patch when the loop body attaches nothing for it.  Later namesakes are
    never looked at.  When no container bears the name there is no patch
    either. *)
Theorem filter_keeps_first_namesake workload container_name wanted all w patch w' :
  given container_name = Some wanted ->
  create_kubernetes_patch workload container_name w = (Ok patch, w') ->
  field "containers" workload = Some (PyList all) ->
  (patch = PyNone
   /\ Forall (fun x => exists n, field "name" x = Some n /\ n <> PyStr wanted) all)
  \/ exists pre c post,
       all = (pre ++ c :: post)%list
       /\ field "name" c = Some (PyStr wanted)
       /\ Forall (fun x => exists n, field "name" x = Some n /\ n <> PyStr wanted) pre
       /\ ((container_patch c = Ok None /\ patch = PyNone)
           \/ exists b, container_patch c = Ok (Some b) /\ patched patch = [b]).
Proof.
  intros Hg H Hf.
  pose proof (truthy_field_some _ _ _ Hf) as Ht.
  apply create_ok in H.
  destruct H as [(Hfalse & _) | (kind & name & ns & cs & blocks & _ & _ & _ & Hc & Hb & -> & _)];
    [rewrite Ht in Hfalse; discriminate |].
  unfold considered in Hc. apply getitem_field in Hf. rewrite Hf, Hg in Hc.
  cbn [rbind py_iter] in Hc.
  destruct (containers_named_first _ _ _ Hc)
    as [[-> Hall] | (pre & c & post & -> & -> & Hn & Hpre)].
  - cbn in Hb. injection Hb as <-. left. split; [reflexivity | exact Hall].
  - right. exists pre, c, post. repeat split; auto.
    cbn [patch_containers] in Hb.
    destruct (container_patch c) as [[b |] |]; cbn [rbind] in Hb;
      [| | discriminate]; injection Hb as <-.
    + right. exists b. split; [reflexivity | exact (patched_blocks kind name ns [b])].
    + left. split; reflexivity.
Qed.

Lemma unrecommended_gives_no_block all :
  Forall (fun c => exists fields, c = PyDict fields
                                 /\ field_truthy "recommendation" c = false) all ->
  patch_containers all = Ok [].
Proof.
  induction 1 as [| c all (fields & -> & Hr) _ IH]; [reflexivity |].
  cbn [patch_containers]. rewrite IH.
  unfold container_patch, field_truthy in *. cbn [py_get field] in *.
  destruct (assoc "recommendation" fields) as [r |]; cbn [rbind].
  - now rewrite Hr.
  - reflexivity.
Qed.

(** X8.  For a workload none of whose containers has a recommendation that
    is a true value, the unfiltered builder returns [None] and prints
    nothing, and the run ends with status 1 after reporting that no
    recommendations were found. *)
Theorem workload_without_recommendations workload container_name kind name namespace all w :
  given container_name = None ->
  field "kind" workload = Some kind ->
  field "name" workload = Some name ->
  field "namespace" workload = Some namespace ->
  field "containers" workload = Some (PyList all) ->
  Forall (fun c => exists fields, c = PyDict fields
                                 /\ field_truthy "recommendation" c = false) all ->
  create_kubernetes_patch workload container_name w = (Ok PyNone, w)
  /\ (forall args data,
        arg_container args = container_name ->
        curl (arg_cluster_id args) (arg_api_key args) = Body data ->
        find_workload data (arg_name args) (arg_namespace args) w = (Ok workload, w) ->
        main args w
        = (Raise (SystemExit 1),
           World (stdout w)
             (stderr w ++ ["No recommendations found for workload '" ++ arg_name args ++ "'"])
             (files w))).
Proof.
  intros Hg Hk Hn Hs Hc Hall.
  assert (E : create_kubernetes_patch workload container_name w = (Ok PyNone, w)).
  { unfold create_kubernetes_patch, build_patch.
    rewrite (truthy_field_some _ _ _ Hk). cbn [negb].
    apply getitem_field in Hk, Hn, Hs, Hc.
    unfold bind, lift. rewrite Hk, Hn, Hs, Hg, Hc. cbn [py_iter].
    now rewrite (unrecommended_gives_no_block _ Hall). }
  split; [exact E |].
  intros args data Ha Hcurl Hf.
  rewrite (main_after_fetch _ _ _ Hcurl). unfold bind at 1. rewrite Hf.
  rewrite (truthy_field_some _ _ _ Hk). cbn [negb].
  unfold bind at 1. rewrite Ha, E. reflexivity.
Qed.

(** The keys of a dict, in order. *)
Definition keys (v : pyval) : list string :=
  match v with
  | PyDict fields => map fst fields
  | _ => []
  end.

(** A dict all of whose values are texts. *)
Definition all_text (v : pyval) : bool :=
  match v with
  | PyDict fields =>
      forallb (fun kv => match snd kv with PyStr _ => true | _ => false end) fields
  | _ => false
  end.

(** The shape of a container block: a name and resources; in resources,
    [requests] and [limits], one at least, in that order; in each of them
    [cpu] and [memory], in that order, some or none, with texts for
    values. *)
Definition block_shape (b : pyval) : Prop :=
  keys b = ["name"; "resources"]
  /\ exists r,
       field "resources" b = Some r
       /\ keys r <> []
       /\ subsequence (keys r) ["requests"; "limits"]
       /\ forall key q, field key r = Some q ->
            subsequence (keys q) ["cpu"; "memory"] /\ all_text q = true.

Lemma quantities_shape section q :
  quantities section = Ok q ->
  subsequence (keys q) ["cpu"; "memory"] /\ all_text q = true.
Proof.
  unfold quantities.
  destruct (py_in "cpuCores" section) as [has_cpu |]; cbn [rbind]; [| discriminate].
  destruct has_cpu.
  - destruct (py_getitem section "cpuCores") as [cores |]; cbn [rbind]; [| discriminate].
    destruct (py_in "memoryGib" section) as [has_mem |]; cbn [rbind]; [| discriminate].
    destruct has_mem.
    + destruct (py_getitem section "memoryGib") as [gib |]; cbn [rbind]; [| discriminate].
      destruct (py_mul gib 1024) as [p |]; cbn [rbind]; [| discriminate].
      destruct (py_int p) as [z |]; cbn [rbind]; [| discriminate].
      intro H. injection H as <-. split; [| reflexivity]. apply subsequence_refl.
    + intro H. injection H as <-. split; [| reflexivity].
      apply sub_keep, sub_skip, sub_nil.
  - destruct (py_in "memoryGib" section) as [has_mem |]; cbn [rbind]; [| discriminate].
    destruct has_mem.
    + destruct (py_getitem section "memoryGib") as [gib |]; cbn [rbind]; [| discriminate].
      destruct (py_mul gib 1024) as [p |]; cbn [rbind]; [| discriminate].
      destruct (py_int p) as [z |]; cbn [rbind]; [| discriminate].
      intro H. injection H as <-. split; [| reflexivity].
      apply sub_skip, subsequence_refl.
    + intro H. injection H as <-. split; [| reflexivity]. apply subsequence_nil.
Qed.

Lemma assoc_value key fields q : assoc key fields = Some q -> In q (map snd fields).
Proof.
  induction fields as [| [k v] rest IH]; cbn; [discriminate |].
  destruct (String.eqb k key); [intro H; injection H as <-; now left | auto].
Qed.

Lemma block_has_shape c b : attaches c = true -> block_of c b -> block_shape b.
Proof.
  intros Ha (name & rec & reqs & lims & _ & Hr & Ht & Hq & Hl & ->).
  pose proof (section_entry_truthy _ _ _ _ Hq Hr) as Tq.
  pose proof (section_entry_truthy _ _ _ _ Hl Hr) as Tl.
  unfold attaches in Ha. rewrite Hr, Ht, Tq, Tl in Ha. cbn [andb] in Ha.
  split; [reflexivity |].
  exists (PyDict (reqs ++ lims)%list). split; [reflexivity |].
  destruct (section_entry_spec _ _ _ _ Hq Hr) as [[_ ->] | (sq & qq & _ & _ & Qq & ->)];
  destruct (section_entry_spec _ _ _ _ Hl Hr) as [[_ ->] | (sl & ql & _ & _ & Ql & ->)];
  cbn in Ha; try discriminate Ha; cbn [app keys map fst];
  (split; [discriminate |]);
  (split; [auto 6 using @sub_nil, @sub_skip, @sub_keep |]);
  intros key q H; cbn [field] in H; apply assoc_value in H; cbn in H;
  repeat (destruct H as [<- | H]; [eauto using quantities_shape |]); destruct H.
Qed.

Lemma Forall2_In_r {A B} (R : A -> B -> Prop) l l' y :
  Forall2 R l l' -> In y l' -> exists x, In x l /\ R x y.
Proof.
  induction 1 as [| a b l l' Hab _ IH]; intros Hin; [destruct Hin |].
  destruct Hin as [-> | Hin].
  - exists a. split; [left; reflexivity | assumption].
  - destruct (IH Hin) as (x & Hx & Hr). exists x. split; [right |]; assumption.
Qed.

(** X9.  Every block of a returned patch has the shape above: the builder
    writes no other key, no section that is absent from the
    recommendation, and no quantity that is not a text. *)
Theorem blocks_are_well_shaped workload container_name w patch w' :
  create_kubernetes_patch workload container_name w = (Ok patch, w') ->
  Forall block_shape (patched patch).
Proof.
  intro H. pose proof H as H0. apply create_ok in H0.
  destruct H0 as [(_ & -> & _) | (kind & name & ns & cs & blocks & _ & _ & _ & Hc & _)];
    [constructor |].
  pose proof (create_blocks _ _ _ _ _ _ H Hc) as Hb.
  apply Forall_forall. intros b Hin.
  destruct (Forall2_In_r _ _ _ _ Hb Hin) as (c & Hcin & Hcb).
  apply filter_In in Hcin. destruct Hcin as [_ Ha].
  exact (block_has_shape _ _ Ha Hcb).
Qed.

(** A memory value the conversion of lines 97 and 111 raises on: [None],
    a list, a dict, a NaN or an infinite float. *)
Definition unconvertible (g : pyval) : Prop :=
  match g with
  | PyNone | PyList _ | PyDict _ => True
  | PyFloat S754_nan | PyFloat (S754_infinity _) => True
  | _ => False
  end.

(** X10.  When a considered container has, in a section of its
    recommendation, a [memoryGib] that cannot be converted, the builder
    raises and no patch is returned. *)
Theorem unconvertible_memory_raises
  workload container_name w cs c key rec sec g :
  considered workload container_name = Ok cs ->
  In c cs ->
  key = "requests" \/ key = "limits" ->
  field "recommendation" c = Some rec ->
  field key rec = Some sec ->
  field "memoryGib" sec = Some g ->
  unconvertible g ->
  exists e w', create_kubernetes_patch workload container_name w = (Raise e, w').
Proof.
  intros Hc Hin Hk Hr Hs Hg Hu.
  destruct (create_kubernetes_patch workload container_name w) as [[patch | e] w'] eqn:H;
    [| now exists e, w'].
  exfalso.
  pose proof (create_blocks _ _ _ _ _ _ H Hc) as Hb.
  assert (Ha : In c (filter attaches cs)).
  { apply filter_In. split; [exact Hin |].
    exact (attaches_section _ _ _ _ Hk Hr Hs (section_truthy _ _ _ Hg)). }
  destruct (Forall2_In_l _ _ _ _ Hb Ha) as (b & _ & Hblock).
  destruct (block_memory _ _ _ _ _ _ Hblock Hk Hr Hs Hg) as (p & z & Hm & Hi & _).
  destruct g; cbn in Hu; try contradiction; cbn in Hm; try discriminate Hm.
  - change (Float64.of_int 1024) with (S754_finite false 4503599627370496 (-42)) in Hm.
    cbn iota in Hm. injection Hm as <-.
    destruct x; try contradiction; cbn in Hi; discriminate Hi.
  - injection Hm as <-. discriminate Hi.
Qed.

(** ** Malformed input *)

(** The first of the four fields the builder reads that a record lacks. *)
Definition first_missing (fields : list (string * pyval)) : option string :=
  find (fun key => match assoc key fields with None => true | Some _ => false end)
    ["kind"; "name"; "namespace"; "containers"].

(** X11.  On a record that is not empty and lacks one of [kind], [name],
    [namespace], [containers], the builder raises KeyError for the first
    of them, in that order, that is missing, and prints nothing. *)
Theorem missing_record_field_raises fields container_name key w :
  fields <> [] ->
  first_missing fields = Some key ->
  create_kubernetes_patch (PyDict fields) container_name w = (Raise (KeyError key), w).
Proof.
  intros Hne. unfold first_missing, create_kubernetes_patch, bind, lift. cbn [find truthy].
  destruct fields as [| f fields]; [contradiction |]. cbn [negb py_getitem].
  destruct (assoc "kind" (f :: fields)); [| intro H; injection H as <-; reflexivity].
  destruct (assoc "name" (f :: fields)); [| intro H; injection H as <-; reflexivity].
  destruct (assoc "namespace" (f :: fields)); [| intro H; injection H as <-; reflexivity].
  destruct (assoc "containers" (f :: fields)) eqn:Hc; [discriminate |].
  intro H; injection H as <-.
  destruct (given container_name); reflexivity.
Qed.

(** X12.  A fetched body that is not an object never yields a workload:
    on [null], a boolean or a number the membership test itself raises
    TypeError; on a list or a text the locator either reports the missing
    field and exits with status 1, or raises TypeError at the subscript. *)
Theorem body_that_is_no_object data name namespace w :
  (forall fields, data <> PyDict fields) ->
  find_workload data name namespace w = (Raise TypeError, w)
  \/ find_workload data name namespace w
     = (Raise (SystemExit 1),
        World (stdout w)
          (stderr w ++ ["Unexpected API response format: 'workloads' field not found"])
          (files w)).
Proof.
  intro Hd. unfold find_workload, bind, lift, print_err, sys_exit.
  destruct data; cbn [py_in]; try (now left).
  - destruct (occurs "workloads" s); cbn; [now left | now right].
  - destruct (existsb (fun i => eq_str i "workloads") items); cbn; [now left | now right].
  - elim (Hd fields). reflexivity.
Qed.

(** ** The pretty flag *)

Definition with_pretty (pretty : bool) (args : arguments) : arguments :=
  Args (arg_cluster_id args) (arg_api_key args) (arg_name args) (arg_namespace args)
    (arg_container args) (arg_output_file args) pretty.

(** A text with the indent of a serialisation forgotten. *)
Definition compact (t : text) : text :=
  match t with
  | Dumps doc _ => Dumps doc None
  | Plain s => Plain s
  end.

(** X13.  The pretty flag changes the indent of the document and nothing
    else: with and without it a run ends the same way, prints the same on
    standard error, and writes the same texts to standard output and to
    the same files, up to the indent. *)
Theorem pretty_changes_only_the_indent args w :
  fst (main (with_pretty true args) w) = fst (main (with_pretty false args) w)
  /\ stderr (snd (main (with_pretty true args) w))
     = stderr (snd (main (with_pretty false args) w))
  /\ map compact (stdout (snd (main (with_pretty true args) w)))
     = map compact (stdout (snd (main (with_pretty false args) w)))
  /\ map (fun f => (fst f, compact (snd f))) (files (snd (main (with_pretty true args) w)))
     = map (fun f => (fst f, compact (snd f))) (files (snd (main (with_pretty false args) w))).
Proof.
  unfold main, with_pretty.
  cbn [arg_cluster_id arg_api_key arg_name arg_namespace arg_container arg_output_file
       arg_pretty].
  unfold bind.
  destruct (fetch_cast_workloads (arg_cluster_id args) (arg_api_key args) w)
    as [[data | e] w1]; [| repeat split].
  destruct (find_workload data (arg_name args) (arg_namespace args) w1)
    as [[workload | e] w2]; [| repeat split].
  destruct (negb (truthy workload)); [repeat split |].
  destruct (create_kubernetes_patch workload (arg_container args) w2)
    as [[patch | e] w3]; [| repeat split].
  destruct (negb (truthy patch)); [repeat split |].
  destruct (given (arg_output_file args)) as [path |];
    cbn; rewrite ?map_app; repeat split.
Qed.

End Script.

(** * Worked runs *)


(** The memory values the specification names, and a few texts of floats. *)
Lemma named_memory_values
  (int_of_text : string -> option Z) (repr_compound : pyval -> string) :
  quantities int_of_text repr_compound (PyDict [("memoryGib", PyFloat Sample.half)])
  = Ok (PyDict [("memory", PyStr "512Mi")])
  /\ quantities int_of_text repr_compound
       (PyDict [("memoryGib", PyFloat Sample.one_and_half)])
     = Ok (PyDict [("memory", PyStr "1536Mi")])
  /\ quantities int_of_text repr_compound
       (PyDict [("memoryGib", PyFloat (S754_finite false 4503599627370496 (-62)))])
     = Ok (PyDict [("memory", PyStr "1Mi")])
  /\ quantities int_of_text repr_compound
       (PyDict [("memoryGib", PyFloat (S754_infinity false))])
     = Raise OverflowError.
Proof.
  repeat split; vm_compute; reflexivity.
Qed.

Lemma float_texts :
  Float64.repr Sample.quarter = "0.25"
  /\ Float64.repr (S754_finite false 7205759403792794 (-56)) = "0.1"
  /\ Float64.repr (S754_finite false 5404319552844596 (-54)) = "0.30000000000000004"
  /\ Float64.repr (S754_finite false 7036874417766400 (-46)) = "100.0"
  /\ Float64.repr (S754_finite false 5000000000000000 1) = "1e+16"
  /\ Float64.repr (S754_finite false 5902958103587057 (-69)) = "1e-05"
  /\ Float64.repr (S754_finite true 1 (-1074)) = "-5e-324"
  /\ Float64.repr (S754_finite false 9007199254740991 971) = "1.7976931348623157e+308".
Proof.
  repeat split; vm_compute; reflexivity.
Qed.

(** ** The theorems on worked data *)

Lemma memory_of_one_and_a_half_gib :
  (exists b, In b (patched Sample.fleet_patch) /\
     field "name" b = Some (PyStr "db") /\
     path ["resources"; "requests"; "memory"] b = Some (PyStr "1536Mi"))
  /\ toward_zero (Float64.to_Q Sample.one_and_half * 1024)
     = Qfloor (Float64.to_Q Sample.one_and_half * 1024).
Proof.
  destruct (memory_is_mebibytes_toward_zero Text.int_of_text Text.repr
              Sample.fleet None Sample.start Sample.fleet_patch Sample.start
              Sample.fleet_containers Sample.db "requests"
              (PyDict [("requests", PyDict [("cpuCores", PyInt 2);
                                            ("memoryGib", PyFloat Sample.one_and_half)])])
              (PyDict [("cpuCores", PyInt 2); ("memoryGib", PyFloat Sample.one_and_half)])
              (PyFloat Sample.one_and_half) (Float64.to_Q Sample.one_and_half))
    as [H1 H2];
    try (vm_compute; reflexivity).
  - simpl; auto 10.
  - left; reflexivity.
  - split; [exact H1 | apply H2; vm_compute; discriminate].
Defined.

Lemma cpu_of_half_a_core :
  exists b, In b (patched Sample.fleet_patch) /\
    field "name" b = Some (PyStr "app") /\
    path ["resources"; "limits"; "cpu"] b = Some (PyStr "0.5").
Proof.
  refine (proj1 (cpu_is_copied_verbatim Text.int_of_text Text.repr
              Sample.fleet None Sample.start Sample.fleet_patch Sample.start
              Sample.fleet_containers Sample.app "limits"
              (PyDict
                 [("requests", PyDict [("cpuCores", PyFloat Sample.quarter);
                                       ("memoryGib", PyInt 1)]);
                  ("limits", PyDict [("cpuCores", PyFloat Sample.half);
                                     ("memoryGib", PyInt 2)])])
              (PyDict [("cpuCores", PyFloat Sample.half); ("memoryGib", PyInt 2)])
              (PyFloat Sample.half) _ _ _ _ _ _ _));
    try (vm_compute; reflexivity).
  - simpl; auto 10.
  - right; reflexivity.
Defined.

Lemma fleet_attaches_app_and_db :
  Forall2
    (fun c b =>
       field "name" b = field "name" c /\
       forall key rec, key = "requests" \/ key = "limits" ->
         field "recommendation" c = Some rec ->
         (field_truthy key rec = true <-> path ["resources"; key] b <> None))
    [Sample.app; Sample.db] [Sample.app_block; Sample.db_block]
  /\ attaches Sample.hollow = false.
Proof.
  destruct (attached_iff_section_present Text.int_of_text Text.repr
              Sample.fleet None Sample.start Sample.fleet_patch Sample.start
              Sample.fleet_containers) as [H1 H2];
    try (vm_compute; reflexivity).
  split; [exact H1 |].
  apply (H2 Sample.hollow (PyDict [("requests", PyDict []); ("limits", PyDict [])]));
    reflexivity.
Defined.

Lemma fleet_blocks_have_recommendations :
  exists emitted,
    subsequence emitted Sample.fleet_containers /\
    Forall2 (fun c b => field "name" b = field "name" c) emitted
      [Sample.app_block; Sample.db_block] /\
    Forall (fun c => exists r, field "recommendation" c = Some r /\ r <> PyNone
                               /\ truthy r = true) emitted.
Proof.
  apply (unrecommended_container_has_no_block Text.int_of_text Text.repr
           Sample.fleet None Sample.start Sample.fleet_patch Sample.start
           Sample.fleet_containers);
    vm_compute; reflexivity.
Defined.

Lemma fleet_blocks_in_order :
  exists cs,
    considered Sample.fleet None = Ok cs /\
    subsequence (filter attaches cs) Sample.fleet_containers /\
    [Some (PyStr "app"); Some (PyStr "db")] = map (field "name") (filter attaches cs).
Proof.
  apply (blocks_keep_container_order Text.int_of_text Text.repr
           Sample.fleet None Sample.start Sample.fleet_patch Sample.start
           Sample.fleet_containers);
    vm_compute; reflexivity.
Defined.

Lemma web_found_before_its_duplicate :
  find_workload
    (PyDict [("workloads", PyList [Sample.api_record; Sample.web; Sample.web_again])])
    "web" "default" Sample.start
  = (Ok Sample.web, Sample.start).
Proof.
  apply (first_match_wins _ [Sample.api_record] Sample.web [Sample.web_again]).
  - reflexivity.
  - repeat constructor.
  - reflexivity.
Defined.

Lemma runs_without_a_workload :
  (find_workload Sample.no_workloads "web" "default" Sample.start
   = (Raise (SystemExit 1),
      World [] ["Unexpected API response format: 'workloads' field not found"] [])
   /\ main Text.int_of_text Text.repr (Sample.api_of Sample.no_workloads)
        (Sample.args_for "web" None) Sample.start
   = (Raise (SystemExit 1),
      World [] ["Unexpected API response format: 'workloads' field not found"] []))
  /\
  (find_workload (PyList [Sample.web]) "web" "default" Sample.start
   = (Raise (SystemExit 1),
      World [] ["Unexpected API response format: 'workloads' field not found"] [])
   /\ main Text.int_of_text Text.repr (Sample.api_of (PyList [Sample.web]))
        (Sample.args_for "web" None) Sample.start
   = (Raise (SystemExit 1),
      World [] ["Unexpected API response format: 'workloads' field not found"] []))
  /\
  (find_workload (PyBool false) "web" "default" Sample.start
   = (Raise TypeError, Sample.start)
   /\ main Text.int_of_text Text.repr (Sample.api_of (PyBool false))
        (Sample.args_for "web" None) Sample.start
   = (Raise TypeError, Sample.start))
  /\
  (find_workload Sample.body "api" "default" Sample.start = (Ok PyNone, Sample.start)
   /\ main Text.int_of_text Text.repr (Sample.api_of Sample.body)
        (Sample.args_for "api" None) Sample.start
   = (Raise (SystemExit 1),
      World [] ["Workload 'api' not found in namespace 'default'"] [])).
Proof.
  split; [| split; [| split]].
  - apply (proj1 (locator_failures Text.int_of_text Text.repr
                    (Sample.api_of Sample.no_workloads) (Sample.args_for "web" None)
                    Sample.no_workloads Sample.start eq_refl)).
    left. exists [("items", PyList [])]. split; reflexivity.
  - apply (proj1 (locator_failures Text.int_of_text Text.repr
                    (Sample.api_of (PyList [Sample.web])) (Sample.args_for "web" None)
                    (PyList [Sample.web]) Sample.start eq_refl)).
    right; left. exists [Sample.web]. split; [reflexivity |].
    constructor; [discriminate | constructor].
  - apply (proj1 (proj2 (locator_failures Text.int_of_text Text.repr
                           (Sample.api_of (PyBool false)) (Sample.args_for "web" None)
                           (PyBool false) Sample.start eq_refl))).
    right; left. exists false. reflexivity.
  - apply (proj2 (proj2 (locator_failures Text.int_of_text Text.repr
                           (Sample.api_of Sample.body) (Sample.args_for "api" None)
                           Sample.body Sample.start eq_refl))
             [Sample.web]); [reflexivity | repeat constructor].
Defined.

Lemma sidecar_is_not_in_web :
  create_kubernetes_patch Text.int_of_text Text.repr Sample.web (Some "sidecar") Sample.start
  = (Ok PyNone, World [] ["Container 'sidecar' not found in workload"] [])
  /\ main Text.int_of_text Text.repr (Sample.api_of Sample.body)
       (Sample.args_for "web" (Some "sidecar")) Sample.start
     = (Raise (SystemExit 1),
        World [] ["Container 'sidecar' not found in workload";
                  "No recommendations found for workload 'web'"] [])
  /\ exit_code (fst (main Text.int_of_text Text.repr (Sample.api_of Sample.body)
                       (Sample.args_for "web" (Some "sidecar")) Sample.start)) = 1.
Proof.
  destruct (unknown_container_gives_no_patch Text.int_of_text Text.repr
              (Sample.api_of Sample.body) Sample.web "sidecar"
              (PyStr "Deployment") (PyStr "web") (PyStr "default") [Sample.app]
              Sample.start) as [H1 H2];
    try reflexivity.
  - discriminate.
  - constructor; [| constructor].
    exists (PyStr "app"). split; [reflexivity | discriminate].
  - split; [exact H1 |].
    apply (H2 (Sample.args_for "web" (Some "sidecar")) Sample.body); reflexivity.
Defined.

Lemma element_without_name_stops_the_scan :
  find_workload
    (PyDict [("workloads", PyList [Sample.no_namespace; Sample.no_name; Sample.web])])
    "web" "default" Sample.start
  = (Raise (KeyError "name"), Sample.start).
Proof.
  apply (proj1 (scan_reads_name_then_namespace
                  (PyDict [("workloads",
                            PyList [Sample.no_namespace; Sample.no_name; Sample.web])])
                  [Sample.no_namespace] Sample.no_name [Sample.web]
                  "web" "default" "name" Sample.start
                  eq_refl (Forall_cons Sample.no_namespace eq_refl (Forall_nil _)) eq_refl)).
Defined.

(** ** Where the code departs from the claims as worded *)

(** C1 as worded fails on a negative value: - 1/2048 GiB is -0.5 MiB, whose
    floor is -1, and the builder writes [0Mi]. *)
Lemma negative_memory_is_not_floored :
  create_kubernetes_patch Text.int_of_text Text.repr
    (Sample.workload_of [Sample.shrunk]) None Sample.start
  = (Ok (Sample.patch_of
           [PyDict [("name", PyStr "shrunk");
                    ("resources", PyDict
                       [("requests", PyDict [("memory", PyStr "0Mi")])])]]),
     Sample.start)
  /\ number_value (PyFloat Sample.minus_2048th) = Some (Float64.to_Q Sample.minus_2048th)
  /\ decimal (Qfloor (Float64.to_Q Sample.minus_2048th * 1024)) ++ "Mi" = "-1Mi"
  /\ "0Mi" <> "-1Mi".
Proof.
  repeat split; try (vm_compute; reflexivity). discriminate.
Qed.

(** C2.  On a container whose [requests] holds other keys only, no cpu
    and no memory quantity comes out of the section, and the builder
    attaches the container all the same, with an empty [requests]: line 88
    has put the empty section into [resources] before any quantity exists,
    so the test of line 115 passes.  A container whose sections are
    themselves empty is not attached, as the comment of line 114 has it. *)
Lemma section_without_quantities_is_attached :
  create_kubernetes_patch Text.int_of_text Text.repr
    (Sample.workload_of [Sample.storage_only]) None Sample.start
  = (Ok (Sample.patch_of
           [PyDict [("name", PyStr "cache");
                    ("resources", PyDict [("requests", PyDict [])])]]),
     Sample.start)
  /\ quantities Text.int_of_text Text.repr
       (PyDict [("ephemeralStorageGib", PyInt 1)]) = Ok (PyDict [])
  /\ create_kubernetes_patch Text.int_of_text Text.repr
       (Sample.workload_of [Sample.hollow]) None Sample.start
     = (Ok PyNone, Sample.start).
Proof.
  repeat split; vm_compute; reflexivity.
Qed.

(** C6 as worded fails on a body that is [null]: it has no [workloads]
    field, and the locator ends with a TypeError raised by the test of
    line 30, not with the format message and [sys.exit(1)]; standard error
    stays empty. *)
Lemma null_body_is_no_schema_error :
  field "workloads" PyNone = None
  /\ find_workload PyNone "web" "default" Sample.start = (Raise TypeError, Sample.start)
  /\ main Text.int_of_text Text.repr (Sample.api_of PyNone)
       (Sample.args_for "web" None) Sample.start
     = (Raise TypeError, Sample.start)
  /\ stderr Sample.start = [].
Proof.
  repeat split; reflexivity.
Qed.

(** C7 as worded fails on the empty name: no container of [web] is named
    by the empty string, yet the filter is not applied and the patch of
    every container is built and printed. *)
Lemma empty_container_name_is_no_filter :
  Forall (fun c => exists n, field "name" c = Some n /\ n <> PyStr "") [Sample.app]
  /\ create_kubernetes_patch Text.int_of_text Text.repr Sample.web (Some "") Sample.start
     = (Ok Sample.web_patch, Sample.start)
  /\ main Text.int_of_text Text.repr (Sample.api_of Sample.body)
       (Sample.args_for "web" (Some "")) Sample.start
     = (Ok tt, World [Dumps Sample.web_patch None] [] []).
Proof.
  split; [| split; vm_compute; reflexivity].
  constructor; [| constructor].
  exists (PyStr "app"). split; [reflexivity | discriminate].
Qed.

(** C10 as worded fails on an earlier element that has another name and no
    namespace: its [namespace] is never read, and the later match is
    returned. *)
Lemma element_without_namespace_is_passed :
  field "namespace" Sample.no_namespace = None
  /\ find_workload
       (PyDict [("workloads", PyList [Sample.no_namespace; Sample.web])])
       "web" "default" Sample.start
     = (Ok Sample.web, Sample.start).
Proof.
  split; reflexivity.
Qed.

(** ** The further properties on worked data *)

(** A service that cannot be reached, and one that answers no JSON. *)
Definition unreachable_api (cluster_id api_key : string) : response :=
  CalledProcessError "Command returned non-zero exit status 6." "".
Definition garbled_api (cluster_id api_key : string) : response := JSONDecodeError.

(** A later container under the name of [app], and one whose memory is
    [null]. *)
Definition app_later : pyval :=
  PyDict [("name", PyStr "app");
          ("recommendation", PyDict [("limits", PyDict [("cpuCores", PyInt 4)])])].
Definition faulty : pyval :=
  PyDict [("name", PyStr "faulty");
          ("recommendation", PyDict [("requests", PyDict [("memoryGib", PyNone)])])].

Lemma uncaught_error_writes_nothing :
  stdout Sample.start = stdout Sample.start /\ files Sample.start = files Sample.start
  /\ (forall e, @Raise pyval (KeyError "name") = Raise e ->
        main Text.int_of_text Text.repr
          (Sample.api_of (PyDict [("workloads", PyList [Sample.no_name; Sample.web])]))
          (Sample.args_for "web" None) Sample.start
        = (Raise e, Sample.start)
        /\ exit_code (@Raise unit e) = 1).
Proof.
  apply (nothing_written_before_the_output Text.int_of_text Text.repr
           (Sample.api_of (PyDict [("workloads", PyList [Sample.no_name; Sample.web])]))
           (Sample.args_for "web" None) Sample.start (Raise (KeyError "name")) Sample.start).
  reflexivity.
Defined.

Lemma builder_reports_sidecar :
  stdout (World [] ["Container 'sidecar' not found in workload"] []) = stdout Sample.start
  /\ files (World [] ["Container 'sidecar' not found in workload"] []) = files Sample.start
  /\ (forall code, Ok PyNone <> Raise (SystemExit code))
  /\ (stderr (World [] ["Container 'sidecar' not found in workload"] []) = stderr Sample.start
      \/ exists wanted,
           given (Some "sidecar") = Some wanted /\ Ok PyNone = Ok PyNone
           /\ stderr (World [] ["Container 'sidecar' not found in workload"] [])
              = (stderr Sample.start
                 ++ [("Container '" ++ wanted ++ "' not found in workload")%string])%list).
Proof.
  apply (builder_only_reports Text.int_of_text Text.repr Sample.web (Some "sidecar")
           Sample.start (Ok PyNone)
           (World [] ["Container 'sidecar' not found in workload"] [])).
  reflexivity.
Defined.

Lemma web_run_writes_one_document :
  exists data workload patch,
    Sample.api_of Sample.body "cluster-1" "secret" = Body data
    /\ find_workload data "web" "default" Sample.start = (Ok workload, Sample.start)
    /\ truthy workload = true
    /\ create_kubernetes_patch Text.int_of_text Text.repr workload None Sample.start
       = (Ok patch, Sample.start)
    /\ truthy patch = true
    /\ World [Dumps Sample.web_patch None] [] [] = World [Dumps patch None] [] [].
Proof.
  apply (successful_run_writes_one_document Text.int_of_text Text.repr
           (Sample.api_of Sample.body) Sample.args Sample.start
           (World [Dumps Sample.web_patch None] [] [])).
  vm_compute. reflexivity.
Defined.

Lemma outage_and_garbled_body :
  main Text.int_of_text Text.repr unreachable_api Sample.args Sample.start
  = (Raise (SystemExit 1),
     World [] ["Error fetching data from CAST.AI API: Command returned non-zero exit status 6."]
       [])
  /\ main Text.int_of_text Text.repr garbled_api Sample.args Sample.start
     = (Raise (SystemExit 1), World [] ["Error decoding JSON response from API"] []).
Proof.
  split.
  - apply (proj1 (failed_fetch_ends_the_run Text.int_of_text Text.repr unreachable_api
                    Sample.args Sample.start)
             "Command returned non-zero exit status 6." "").
    reflexivity.
  - apply (proj2 (failed_fetch_ends_the_run Text.int_of_text Text.repr garbled_api
                    Sample.args Sample.start)).
    reflexivity.
Defined.

Lemma located_web_is_a_match :
  Sample.start = Sample.start
  /\ ((exists ws,
         field "workloads"
           (PyDict [("workloads", PyList [Sample.api_record; Sample.web; Sample.web_again])])
         = Some (PyList ws)
         /\ In Sample.web ws /\ matches "web" "default" Sample.web = true)
      \/ (Sample.web = PyNone
          /\ forall ws,
               field "workloads"
                 (PyDict [("workloads",
                           PyList [Sample.api_record; Sample.web; Sample.web_again])])
               = Some (PyList ws) ->
               Forall (fun e => matches "web" "default" e = false) ws)).
Proof.
  apply (locator_returns_a_match_or_none
           (PyDict [("workloads", PyList [Sample.api_record; Sample.web; Sample.web_again])])
           "web" "default" Sample.start Sample.web Sample.start).
  reflexivity.
Defined.

Lemma fleet_patch_has_blocks :
  Sample.fleet_patch = PyNone
  \/ exists kind name namespace,
       field "kind" Sample.fleet = Some kind
       /\ field "name" Sample.fleet = Some name
       /\ field "namespace" Sample.fleet = Some namespace
       /\ patched Sample.fleet_patch <> []
       /\ Sample.fleet_patch
          = PyDict
              [("apiVersion", PyStr "apps/v1");
               ("kind", kind);
               ("metadata", PyDict [("name", name); ("namespace", namespace)]);
               ("spec", PyDict [("template", PyDict [("spec",
                  PyDict [("containers", PyList (patched Sample.fleet_patch))])])])].
Proof.
  apply (patch_is_none_or_has_blocks Text.int_of_text Text.repr Sample.fleet None
           Sample.start Sample.fleet_patch Sample.start).
  vm_compute. reflexivity.
Defined.

Lemma first_app_is_patched :
  (Sample.web_patch = PyNone
   /\ Forall (fun x => exists n, field "name" x = Some n /\ n <> PyStr "app")
        [Sample.bare; Sample.app; app_later])
  \/ exists pre c post,
       [Sample.bare; Sample.app; app_later] = (pre ++ c :: post)%list
       /\ field "name" c = Some (PyStr "app")
       /\ Forall (fun x => exists n, field "name" x = Some n /\ n <> PyStr "app") pre
       /\ ((container_patch Text.int_of_text Text.repr c = Ok None
            /\ Sample.web_patch = PyNone)
           \/ exists b, container_patch Text.int_of_text Text.repr c = Ok (Some b)
                        /\ patched Sample.web_patch = [b]).
Proof.
  apply (filter_keeps_first_namesake Text.int_of_text Text.repr
           (Sample.workload_of [Sample.bare; Sample.app; app_later]) (Some "app") "app"
           [Sample.bare; Sample.app; app_later] Sample.start Sample.web_patch Sample.start);
    vm_compute; reflexivity.
Defined.

Lemma workload_of_bare_containers :
  create_kubernetes_patch Text.int_of_text Text.repr
    (Sample.workload_of [Sample.bare; Sample.idle]) None Sample.start
  = (Ok PyNone, Sample.start)
  /\ main Text.int_of_text Text.repr
       (Sample.api_of
          (PyDict [("workloads", PyList [Sample.workload_of [Sample.bare; Sample.idle]])]))
       (Sample.args_for "web" None) Sample.start
     = (Raise (SystemExit 1), World [] ["No recommendations found for workload 'web'"] []).
Proof.
  destruct (workload_without_recommendations Text.int_of_text Text.repr
              (Sample.api_of
                 (PyDict [("workloads",
                           PyList [Sample.workload_of [Sample.bare; Sample.idle]])]))
              (Sample.workload_of [Sample.bare; Sample.idle]) None
              (PyStr "Deployment") (PyStr "web") (PyStr "default")
              [Sample.bare; Sample.idle] Sample.start) as [H1 H2];
    try reflexivity.
  - constructor; [| constructor; [| constructor]].
    + exists [("name", PyStr "init")]. split; reflexivity.
    + exists [("name", PyStr "idle"); ("recommendation", PyNone)]. split; reflexivity.
  - split; [exact H1 |].
    apply (H2 (Sample.args_for "web" None)
              (PyDict [("workloads",
                        PyList [Sample.workload_of [Sample.bare; Sample.idle]])]));
      reflexivity.
Defined.

Lemma fleet_blocks_are_well_shaped : Forall block_shape [Sample.app_block; Sample.db_block].
Proof.
  apply (blocks_are_well_shaped Text.int_of_text Text.repr Sample.fleet None
           Sample.start Sample.fleet_patch Sample.start).
  vm_compute. reflexivity.
Defined.

Lemma null_memory_raises :
  exists e w',
    create_kubernetes_patch Text.int_of_text Text.repr
      (Sample.workload_of [Sample.app; faulty]) None Sample.start
    = (Raise e, w').
Proof.
  apply (unconvertible_memory_raises Text.int_of_text Text.repr
           (Sample.workload_of [Sample.app; faulty]) None Sample.start
           [Sample.app; faulty] faulty "requests"
           (PyDict [("requests", PyDict [("memoryGib", PyNone)])])
           (PyDict [("memoryGib", PyNone)]) PyNone);
    first [reflexivity | exact I | (left; reflexivity) | (right; left; reflexivity)].
Defined.

Lemma record_without_kind_raises :
  create_kubernetes_patch Text.int_of_text Text.repr
    (PyDict [("name", PyStr "web"); ("namespace", PyStr "default")]) None Sample.start
  = (Raise (KeyError "kind"), Sample.start).
Proof.
  apply (missing_record_field_raises Text.int_of_text Text.repr
           [("name", PyStr "web"); ("namespace", PyStr "default")] None "kind" Sample.start).
  - discriminate.
  - reflexivity.
Defined.

Lemma null_body_raises :
  find_workload PyNone "web" "default" Sample.start = (Raise TypeError, Sample.start)
  \/ find_workload PyNone "web" "default" Sample.start
     = (Raise (SystemExit 1),
        World (stdout Sample.start)
          (stderr Sample.start
             ++ ["Unexpected API response format: 'workloads' field not found"])
          (files Sample.start)).
Proof.
  apply (body_that_is_no_object PyNone "web" "default" Sample.start).
  intros fields. discriminate.
Defined.
